(** * Skin-shard statistics: a shallow embedding of the two reporting scripts

    The development follows [scripts/skin_shards_stats/shards.py] (price-tier
    statistics of the loot tab), [scripts/skin_shards_stats/challenges.py]
    (per-champion skin collection report) and
    [scripts/settings_backup/import_from_json.py] (restoring saved settings).

    Python [int]s are [Z].  JSON objects whose shape is fixed are records.
    A Python [dict] that is only read by key is a [gmap]; a [dict] whose
    iteration order reaches the output is an insertion-ordered association
    list ([dict_get] / [dict_set]).  A subscript that can raise [KeyError]
    returns [option]. *)

From stdpp Require Import gmap strings list fin_maps pretty.

Local Open Scope Z_scope.

(** ** Data model *)

(** One object of the [/lol-loot/v1/player-loot] document. *)
Record LootRecord := {
  displayCategories : string;
  itemStatus : string;
  disenchantRecipeName : option string;
  parentStoreItemId : Z;
  value : Z;
  count : Z
}.

(** One skin object of the Meraki champion document. *)
Record Skin := {
  skin_id : Z;
  isBase : bool
}.

(** One champion object of the Meraki champion document. *)
Record Champion := {
  champion_id : Z;
  champion_name : string;
  champion_key : string;
  skins : list Skin
}.

(** The inner dictionary [{"owned": _, "not_owned": _}] of a price tier. *)
Record TierCounters := {
  owned : Z;
  not_owned : Z
}.

(** One object of the [/lol-inventory/v2/inventory/CHAMPION_SKIN] document. *)
Record OwnedItem := {
  itemId : Z
}.

(** A row handed to [table.add_row]. *)
Record Row := {
  row_name : string;
  row_skins : Z;
  row_unowned : Z;
  row_total : Z
}.

#[global] Instance LootRecord_eq_dec : EqDecision LootRecord.
Proof. solve_decision. Defined.
#[global] Instance Skin_eq_dec : EqDecision Skin.
Proof. solve_decision. Defined.
#[global] Instance Champion_eq_dec : EqDecision Champion.
Proof. solve_decision. Defined.
#[global] Instance TierCounters_eq_dec : EqDecision TierCounters.
Proof. solve_decision. Defined.
#[global] Instance OwnedItem_eq_dec : EqDecision OwnedItem.
Proof. solve_decision. Defined.
#[global] Instance Row_eq_dec : EqDecision Row.
Proof. solve_decision. Defined.

(** The record [r] filed under another display category. *)
Definition with_category (c : string) (r : LootRecord) : LootRecord :=
  {| displayCategories := c;
     itemStatus := itemStatus r;
     disenchantRecipeName := disenchantRecipeName r;
     parentStoreItemId := parentStoreItemId r;
     value := value r;
     count := count r |}.

(** ** Insertion-ordered dictionaries *)

Section PyDict.
Context {K V : Type} `{EqDecision K}.

(** [d[k]]: the value stored under [k], [None] for a [KeyError]. *)
Fixpoint dict_get (k : K) (d : list (K * V)) : option V :=
  match d with
  | [] => None
  | (k', v) :: d' => if decide (k = k') then Some v else dict_get k d'
  end.

(** [d[k] = v]: an existing key keeps its position, a new key goes last. *)
Fixpoint dict_set (k : K) (v : V) (d : list (K * V)) : list (K * V) :=
  match d with
  | [] => [(k, v)]
  | (k', v') :: d' =>
      if decide (k = k') then (k, v) :: d' else (k', v') :: dict_set k v d'
  end.

Definition dict_keys (d : list (K * V)) : list K := d.*1.
Definition dict_values (d : list (K * V)) : list V := d.*2.
End PyDict.

(** Sum of a list of integers. *)
Definition Zsum (l : list Z) : Z := foldr Z.add 0 l.

(** [for x in l: body], where the body may raise: the state is threaded
    through the iterations and the first failure aborts the loop. *)
Fixpoint for_each {S A : Type} (body : S → A → option S) (s : S) (l : list A)
  : option S :=
  match l with
  | [] => Some s
  | x :: rest => s' ← body s x; for_each body s' rest
  end.

(** ** shards.py *)

Module SkinShardsStats.

(** [[item for item in player_loot if item["displayCategories"] == "SKIN"]] *)
Definition skin_shards (player_loot : list LootRecord) : list LootRecord :=
  filter (λ item, displayCategories item = "SKIN") player_loot.

(** [[shard["value"] for shard in skin_shards]] *)
Definition shard_prices (shards : list LootRecord) : list Z :=
  value <$> shards.

(** [{k: {"owned": 0, "not_owned": 0} for k in shard_prices}]; every key
    gets an inner dictionary of its own. *)
Definition init_categories (prices : list Z) : gmap Z TierCounters :=
  foldl (λ cats k, <[k := {| owned := 0; not_owned := 0 |}]> cats) ∅ prices.

(** [cats[k]["owned"] += n] *)
Definition add_owned (k n : Z) (cats : gmap Z TierCounters)
  : option (gmap Z TierCounters) :=
  e ← cats !! k;
  Some (<[k := {| owned := owned e + n; not_owned := not_owned e |}]> cats).

(** [cats[k]["not_owned"] += n] *)
Definition add_not_owned (k n : Z) (cats : gmap Z TierCounters)
  : option (gmap Z TierCounters) :=
  e ← cats !! k;
  Some (<[k := {| owned := owned e; not_owned := not_owned e + n |}]> cats).

(** The body of [for shard in skin_shards]. *)
Definition tally (cats : gmap Z TierCounters) (shard : LootRecord)
  : option (gmap Z TierCounters) :=
  if decide (itemStatus shard = "OWNED") then
    add_owned (value shard) (count shard) cats
  else
    cats' ← add_not_owned (value shard) 1 cats;
    add_owned (value shard) (count shard - 1) cats'.

(** [callback], up to the point where [shard_categories] is printed. *)
Definition callback (player_loot : list LootRecord)
  : option (gmap Z TierCounters) :=
  let shards := skin_shards player_loot in
  let prices := shard_prices shards in
  let shard_categories := init_categories prices in
  for_each tally shard_categories shards.

(** *** The accounting rule as the specification words it *)

(** What one selected record adds to the [owned] counter of its tier. *)
Definition owned_share (r : LootRecord) : Z :=
  if decide (itemStatus r = "OWNED") then count r else count r - 1.

(** What one selected record adds to the [not_owned] counter of its tier. *)
Definition not_owned_share (r : LootRecord) : Z :=
  if decide (itemStatus r = "OWNED") then 0 else 1.

(** The records of category ["SKIN"] priced at tier [t]. *)
Definition tier_records (loot : list LootRecord) (t : Z) : list LootRecord :=
  filter (λ r, displayCategories r = "SKIN" ∧ value r = t) loot.

Definition spec_owned (loot : list LootRecord) (t : Z) : Z :=
  Zsum (owned_share <$> tier_records loot t).

Definition spec_not_owned (loot : list LootRecord) (t : Z) : Z :=
  Zsum (not_owned_share <$> tier_records loot t).

Definition spec_count (loot : list LootRecord) (t : Z) : Z :=
  Zsum (count <$> tier_records loot t).

(** A selected record that is not owned and claims zero units. *)
Definition zero_count_anomaly (r : LootRecord) : bool :=
  bool_decide (displayCategories r = "SKIN" ∧ itemStatus r ≠ "OWNED"
               ∧ count r = 0).

Definition has_zero_count_anomaly (loot : list LootRecord) : bool :=
  existsb zero_count_anomaly loot.

(** Some reading [detect] of what [callback] hands back tells the feeds
    with a zero-count record from the feeds without one. *)
Definition surfaces_zero_count
    (detect : option (gmap Z TierCounters) → bool) : Prop :=
  ∀ loot, detect (callback loot) = has_zero_count_anomaly loot.

End SkinShardsStats.

(** ** challenges.py *)

Module ChallengeCollectionStats.

(** The inner loop of [get_skins_by_champion_key]: base skins are skipped,
    the others are appended in the order they are met. *)
Definition non_base_skins (champion : Champion) : list Skin :=
  foldl (λ acc skin, if isBase skin then acc else acc ++ [skin])
        [] (skins champion).

(** [get_skins_by_champion_key]: one pass over [champ_json.values()],
    storing under [champion["key"]]. *)
Definition get_skins_by_champion_key (champ_json : list (string * Champion))
  : list (string * list Skin) :=
  foldl (λ d champion,
           dict_set (champion_key champion) (non_base_skins champion) d)
        [] (dict_values champ_json).

(** [if k not in m: m[k] = 1 else: m[k] += 1] *)
Definition bump (k : Z) (m : gmap Z Z) : gmap Z Z :=
  match m !! k with
  | None => <[k := 1]> m
  | Some n => <[k := n + 1]> m
  end.

(** [get_unowned_shards_by_champion_id], on the decoded loot document. *)
Definition get_unowned_shards_by_champion_id (loot : list LootRecord)
  : gmap Z Z :=
  foldl (λ m item,
           if decide (itemStatus item ≠ "OWNED") then
             if decide (disenchantRecipeName item
                        = Some "SKIN_RENTAL_disenchant") then
               bump (parentStoreItemId item) m
             else m
           else m)
        ∅ loot.

(** The body of [for skin in skins] in [get_owned_skins_by_champion_id];
    [champ_json[champion_key]] is evaluated only for an owned skin. *)
Definition count_skin (champ_json : list (string * Champion))
    (owned_skin_ids : list Z) (champion_key : string)
    (m : gmap Z Z) (skin : Skin) : option (gmap Z Z) :=
  if decide (skin_id skin ∈ owned_skin_ids) then
    champion ← dict_get champion_key champ_json;
    Some (bump (champion_id champion) m)
  else Some m.

(** [get_owned_skins_by_champion_id], on the decoded inventory document. *)
Definition get_owned_skins_by_champion_id
    (skins_by_champion_key : list (string * list Skin))
    (champ_json : list (string * Champion))
    (owned_skins : list OwnedItem) : option (gmap Z Z) :=
  let owned_skin_ids := itemId <$> owned_skins in
  for_each (λ m entry,
              for_each (count_skin champ_json owned_skin_ids entry.1)
                       m entry.2)
           ∅ skins_by_champion_key.

(** The body of the reporting loop of [callback]. *)
Definition add_row (champ_json : list (string * Champion))
    (unowned_shards_by_champion_id owned_skins_by_champion_id : gmap Z Z)
    (table : list Row) (entry : string * list Skin) : option (list Row) :=
  champion ← dict_get entry.1 champ_json;
  let unowned_skin_shards :=
    match unowned_shards_by_champion_id !! champion_id champion with
    | Some n => n
    | None => 0
    end in
  let owned_skin_count :=
    match owned_skins_by_champion_id !! champion_id champion with
    | Some n => n
    | None => 0
    end in
  let total_sum := owned_skin_count + unowned_skin_shards in
  Some (table ++ [ {| row_name := champion_name champion;
                      row_skins := Z.of_nat (length entry.2);
                      row_unowned := unowned_skin_shards;
                      row_total := total_sum |} ]).

(** [callback], from the three decoded documents to the rows of the table. *)
Definition callback (champ_json : list (string * Champion))
    (loot : list LootRecord) (owned_skins : list OwnedItem)
  : option (list Row) :=
  let skins_by_champion_key := get_skins_by_champion_key champ_json in
  let unowned_shards_by_champion_id :=
    get_unowned_shards_by_champion_id loot in
  owned_skins_by_champion_id ←
    get_owned_skins_by_champion_id skins_by_champion_key champ_json
                                   owned_skins;
  for_each (add_row champ_json unowned_shards_by_champion_id
                    owned_skins_by_champion_id)
           [] skins_by_champion_key.

(** *** The catalog as the interface describes it *)

(** The document is a dictionary (its keys are pairwise different) and
    every champion repeats its dictionary key in its [key] field. *)
Definition catalog_keyed (champ_json : list (string * Champion)) : Prop :=
  NoDup (dict_keys champ_json)
  ∧ Forall (λ entry, champion_key entry.2 = entry.1) champ_json.

(** Champions have pairwise different numeric ids. *)
Definition catalog_ids_distinct (champ_json : list (string * Champion))
  : Prop :=
  NoDup (champion_id <$> dict_values champ_json).

(** The skins of a champion that are not its base skin, in catalog order. *)
Definition spec_non_base (champion : Champion) : list Skin :=
  filter (λ skin, isBase skin = false) (skins champion).

(** The number of loot records that can be redeemed for a skin of the
    champion with id [i]. *)
Definition spec_unowned (loot : list LootRecord) (i : Z) : Z :=
  Z.of_nat (length (filter
    (λ item, itemStatus item ≠ "OWNED"
             ∧ disenchantRecipeName item = Some "SKIN_RENTAL_disenchant"
             ∧ parentStoreItemId item = i) loot)).

(** The number of non-base skins with an owned id, summed over the catalog
    entries whose champion has id [i]. *)
Definition spec_owned_total (champ_json : list (string * Champion))
    (owned_skin_ids : list Z) (i : Z) : Z :=
  Zsum ((λ entry : string * Champion,
           if decide (i = champion_id entry.2) then
             Z.of_nat (length (filter (λ skin, skin_id skin ∈ owned_skin_ids)
                                      (spec_non_base entry.2)))
           else 0) <$> champ_json).

(** The row the report is to show for one catalog entry. *)
Definition spec_row (unowned owned : gmap Z Z) (champion : Champion) : Row :=
  {| row_name := champion_name champion;
     row_skins := Z.of_nat (length (spec_non_base champion));
     row_unowned := default 0 (unowned !! champion_id champion);
     row_total := default 0 (owned !! champion_id champion)
                  + default 0 (unowned !! champion_id champion) |}.

End ChallengeCollectionStats.

(** ** Sample documents *)

Module Samples.

Definition aatrox : Champion :=
  {| champion_id := 266; champion_name := "Aatrox"; champion_key := "Aatrox";
     skins := [ {| skin_id := 266000; isBase := true |};
                {| skin_id := 266001; isBase := false |};
                {| skin_id := 266002; isBase := false |} ] |}.

Definition ahri : Champion :=
  {| champion_id := 103; champion_name := "Ahri"; champion_key := "Ahri";
     skins := [ {| skin_id := 103001; isBase := false |};
                {| skin_id := 103000; isBase := true |} ] |}.

Definition champ_json : list (string * Champion) :=
  [ ("Aatrox", aatrox); ("Ahri", ahri) ].

Definition owned_skins : list OwnedItem :=
  [ {| itemId := 266001 |}; {| itemId := 103001 |}; {| itemId := 266001 |} ].

Definition shard (category status : string) (recipe : option string)
    (parent tier units : Z) : LootRecord :=
  {| displayCategories := category; itemStatus := status;
     disenchantRecipeName := recipe; parentStoreItemId := parent;
     value := tier; count := units |}.

Definition rental : option string := Some "SKIN_RENTAL_disenchant".

(** The tier scenario of the specification. *)
Definition loot_520 : list LootRecord :=
  [ shard "SKIN" "OWNED" rental 266 520 3;
    shard "SKIN" "NOT_OWNED" rental 266 520 1 ].

Definition loot_mixed : list LootRecord :=
  [ shard "SKIN" "NONE" rental 266 520 2;
    shard "SKIN" "NONE" (Some "SKIN_disenchant") 103 1350 1;
    shard "CHAMPION" "NONE" (Some "CHAMPION_RENTAL_disenchant") 103 4800 1;
    shard "SKIN" "OWNED" rental 103 975 1;
    shard "SKIN" "NONE" rental 266 975 1 ].

(** A record that is not owned and claims zero units. *)
Definition zero_shard : LootRecord := shard "SKIN" "NONE" rental 266 520 0.

Definition loot_with_zero : list LootRecord :=
  [ zero_shard; shard "SKIN" "OWNED" rental 266 520 2 ].

Definition loot_without_zero : list LootRecord :=
  [ shard "SKIN" "NONE" rental 266 520 2 ].

(** A rental shard filed under a category other than ["SKIN"]. *)
Definition stray_shard : LootRecord := shard "CHEST" "NONE" rental 266 520 1.

(** The entity scenario of the specification. *)
Definition aatrox_only : list (string * Champion) :=
  [ ("Aatrox",
     {| champion_id := 266; champion_name := "Aatrox";
        champion_key := "Aatrox";
        skins := [ {| skin_id := 266000; isBase := true |};
                   {| skin_id := 266001; isBase := false |} ] |}) ].

End Samples.

(** ** Merging results *)

(** The entry of a tier met in two feeds. *)
Definition merge_counters (a b : TierCounters) : TierCounters :=
  {| owned := owned a + owned b; not_owned := not_owned a + not_owned b |}.

(** A loot record that [get_unowned_shards_by_champion_id] counts. *)
Definition redeemable (item : LootRecord) : Prop :=
  itemStatus item ≠ "OWNED"
  ∧ disenchantRecipeName item = Some "SKIN_RENTAL_disenchant".

(** ** settings_backup/import_from_json.py *)

Module SettingsImport.
Section Client.

(** A decoded JSON document, whatever its shape. *)
Context {Json : Type}.

(** [json.load(open(path))]: [None] when the file cannot be opened or does
    not hold JSON. *)
Variable load : string → option Json.

(** The arguments of one [connection.request] call. *)
Record Request := {
  method : string;
  path : string;
  data : Json
}.

(** The client's answer to a request, given the requests issued before it:
    the status of the response, or [None] when the call raises. *)
Variable respond : list Request → Request → option Z.

(** What the script has done so far: the requests it issued and the lines it
    printed. *)
Record Trace := {
  sent : list Request;
  lines : list string
}.

(** The body of [for item in ...]; the flag tells whether the iteration
    ended without an exception. *)
Definition restore_item (tr : Trace) (item : string) : Trace * bool :=
  match load ("scripts/settings_backup/.backup/" +:+ item +:+ ".json") with
  | None => (tr, false)
  | Some d =>
      let req := {| method := "patch";
                    path := "/lol-game-settings/v1/" +:+ item;
                    data := d |} in
      match respond (sent tr) req with
      | None => ({| sent := sent tr ++ [req]; lines := lines tr |}, false)
      | Some status =>
          ({| sent := sent tr ++ [req];
              lines := lines tr
                       ++ [item +:+ " req status: " +:+ pretty status] |},
           true)
      end
  end.

(** The loop over the items; an exception ends it. *)
Fixpoint restore_all (tr : Trace) (items : list string) : Trace * bool :=
  match items with
  | [] => (tr, true)
  | item :: rest =>
      match restore_item tr item with
      | (tr', true) => restore_all tr' rest
      | (tr', false) => (tr', false)
      end
  end.

(** [worker_func], started with nothing sent and nothing printed. *)
Definition worker_func : Trace * bool :=
  restore_all {| sent := []; lines := [] |}
              ["game-settings"; "input-settings"].

(** The endpoint an item is restored to. *)
Definition endpoint (item : string) : string :=
  "/lol-game-settings/v1/" +:+ item.

End Client.
End SettingsImport.

(** ** More sample documents *)

Module MoreSamples.

(** Two champions that carry the same [key] field. *)
Definition clashing : list (string * Champion) :=
  [ ("Aatrox", Samples.aatrox);
    ("Ahri", {| champion_id := 103; champion_name := "Ahri";
                champion_key := "Aatrox";
                skins := [ {| skin_id := 103001; isBase := false |} ] |}) ].

(** Only the backup of the game settings is on disk. *)
Definition load_game_only (p : string) : option string :=
  if decide (p = "scripts/settings_backup/.backup/game-settings.json")
  then Some "{}" else None.

Definition load_both (p : string) : option string :=
  if decide (p = "scripts/settings_backup/.backup/game-settings.json")
  then Some "{}"
  else if decide (p = "scripts/settings_backup/.backup/input-settings.json")
  then Some "[]" else None.

Definition always_ok (history : list (SettingsImport.Request (Json := string)))
    (req : SettingsImport.Request (Json := string)) : option Z :=
  Some 204.

End MoreSamples.

(** * Properties of shards.py *)

Section ShardsFacts.
Import SkinShardsStats.

Implicit Types (loot shards : list LootRecord) (cats : gmap Z TierCounters).
Implicit Types (r : LootRecord) (t : Z).

Lemma Zsum_app (l1 l2 : list Z) : Zsum (l1 ++ l2) = Zsum l1 + Zsum l2.
Proof. unfold Zsum. induction l1 as [|x l1 IH]; simpl; lia. Qed.

(** Every selected record accounts for [count] units in total. *)
Lemma shares_add_up r : owned_share r + not_owned_share r = count r.
Proof. unfold owned_share, not_owned_share. case_decide; lia. Qed.

Lemma init_categories_from cats (prices : list Z) t :
  foldl (λ cats k, <[k := {| owned := 0; not_owned := 0 |}]> cats)
        cats prices !! t
  = if decide (t ∈ prices) then Some {| owned := 0; not_owned := 0 |}
    else cats !! t.
Proof.
  revert cats. induction prices as [|k prices IH]; intros cats; cbn [foldl].
  - rewrite decide_False; [done | by intros ?%elem_of_nil].
  - rewrite IH. destruct (decide (t ∈ prices)) as [Hin|Hnin].
    + rewrite decide_True; [done | by right].
    + destruct (decide (t = k)) as [->|Hne].
      * rewrite decide_True; [by rewrite lookup_insert_eq | by left].
      * rewrite decide_False; [by rewrite lookup_insert_ne|].
        by intros [?|?]%elem_of_cons.
Qed.

Lemma init_categories_lookup (prices : list Z) t :
  init_categories prices !! t
  = if decide (t ∈ prices) then Some {| owned := 0; not_owned := 0 |}
    else None.
Proof.
  unfold init_categories. rewrite init_categories_from.
  by rewrite lookup_empty.
Qed.

(** One iteration of the loop, on a tier that has its entry. *)
Lemma tally_present cats r e :
  cats !! value r = Some e →
  tally cats r
  = Some (<[value r := {| owned := owned e + owned_share r;
                          not_owned := not_owned e + not_owned_share r |}]>
            cats).
Proof.
  intros He. unfold tally, add_owned, add_not_owned, owned_share,
    not_owned_share.
  case_decide; simpl; rewrite He; simpl.
  - by rewrite Z.add_0_r.
  - rewrite lookup_insert_eq. simpl. by rewrite insert_insert_eq.
Qed.

(** One iteration of the loop, on a tier without an entry: [KeyError]. *)
Lemma tally_absent cats r : cats !! value r = None → tally cats r = None.
Proof.
  intros He. unfold tally, add_owned, add_not_owned.
  case_decide; simpl; by rewrite He.
Qed.

(** The whole loop, started on a dictionary that has an entry for every
    tier it is going to meet. *)
Lemma for_each_tally shards : ∀ cats,
  (∀ r, r ∈ shards → is_Some (cats !! value r)) →
  ∃ cats',
    for_each tally cats shards = Some cats'
    ∧ ∀ t, cats' !! t
           = (λ e, {| owned :=
                        owned e + Zsum (owned_share
                                          <$> filter (λ r, value r = t) shards);
                      not_owned :=
                        not_owned e
                        + Zsum (not_owned_share
                                  <$> filter (λ r, value r = t) shards) |})
             <$> cats !! t.
Proof.
  induction shards as [|r shards IH]; intros cats Hkeys.
  - exists cats. split; [done|]. intros t. simpl.
    destruct (cats !! t) as [[o n]|]; simpl; [|done].
    by rewrite !Z.add_0_r.
  - destruct (Hkeys r) as [e He]; [by left|].
    simpl. rewrite (tally_present _ _ _ He). simpl.
    destruct (IH (<[value r := {| owned := owned e + owned_share r;
                                  not_owned := not_owned e
                                               + not_owned_share r |}]> cats))
      as (cats' & Hrun & Hlook).
    { intros r' Hr'. destruct (decide (value r = value r')) as [Heq|Hne].
      - rewrite Heq, lookup_insert_eq. by eexists.
      - rewrite lookup_insert_ne by done. apply Hkeys. by right. }
    exists cats'. split; [done|]. intros t. rewrite Hlook.
    rewrite filter_cons. destruct (decide (value r = t)) as [<-|Hne].
    + rewrite lookup_insert_eq, He. cbn. rewrite !Z.add_assoc. done.
    + by rewrite lookup_insert_ne.
Qed.

Lemma tier_records_skin_shards loot t :
  filter (λ r, value r = t) (skin_shards loot) = tier_records loot t.
Proof.
  unfold skin_shards, tier_records.
  induction loot as [|r loot IH]; [done|].
  rewrite !filter_cons.
  destruct (decide (displayCategories r = "SKIN")) as [Hs|Hs].
  - rewrite filter_cons. destruct (decide (value r = t)) as [Ht|Ht].
    + rewrite decide_True by done. by rewrite IH.
    + rewrite decide_False by tauto. done.
  - rewrite decide_False by tauto. done.
Qed.

Lemma tier_present_iff loot t :
  t ∈ shard_prices (skin_shards loot) ↔ tier_records loot t ≠ [].
Proof.
  rewrite <- tier_records_skin_shards. unfold shard_prices.
  rewrite list_elem_of_fmap. split.
  - intros (r & -> & Hr) Hnil.
    assert (r ∈ filter (λ r', value r' = value r) (skin_shards loot)) as Hin
      by (by apply list_elem_of_filter).
    rewrite Hnil in Hin. by apply elem_of_nil in Hin.
  - intros Hne.
    destruct (filter (λ r, value r = t) (skin_shards loot)) as [|r l] eqn:Hf;
      [done|].
    assert (r ∈ filter (λ r, value r = t) (skin_shards loot)) as Hin
      by (rewrite Hf; by left).
    apply list_elem_of_filter in Hin as [Hv Hin]. by exists r.
Qed.

(** The dictionary [callback] prints, tier by tier. *)
Lemma callback_closed_form loot :
  ∃ cats,
    callback loot = Some cats
    ∧ ∀ t, cats !! t
           = if decide (t ∈ shard_prices (skin_shards loot)) then
               Some {| owned := spec_owned loot t;
                       not_owned := spec_not_owned loot t |}
             else None.
Proof.
  unfold callback.
  destruct (for_each_tally (skin_shards loot)
              (init_categories (shard_prices (skin_shards loot))))
    as (cats & Hrun & Hlook).
  { intros r Hr. rewrite init_categories_lookup.
    rewrite decide_True; [by eexists|].
    unfold shard_prices. apply list_elem_of_fmap. by exists r. }
  exists cats. split; [done|]. intros t.
  rewrite Hlook, init_categories_lookup, tier_records_skin_shards.
  case_decide; done.
Qed.

(** The sums of a feed split around one selected record. *)
Lemma tier_records_insert l1 r l2 :
  displayCategories r = "SKIN" →
  tier_records (l1 ++ r :: l2) (value r)
  = tier_records l1 (value r) ++ r :: tier_records l2 (value r).
Proof.
  intros Hs. unfold tier_records.
  by rewrite filter_app, filter_cons_True.
Qed.

Lemma tier_records_app l1 l2 t :
  tier_records (l1 ++ l2) t = tier_records l1 t ++ tier_records l2 t.
Proof. unfold tier_records. by rewrite filter_app. Qed.

(** C1. Tier accounting rule: [callback] always returns a dictionary.  A
    price tier has an entry in it exactly when the feed holds a record of
    display category "SKIN" with that value, and in the entry of a tier the
    [owned] counter is the sum, over the "SKIN" records of the feed with that
    value, of [count] for a record whose status is "OWNED" and of [count - 1]
    for any other record, while the [not_owned] counter is the number of
    records of the second kind. *)
Theorem tier_accounting_rule loot :
  ∃ cats,
    callback loot = Some cats
    ∧ (∀ t, is_Some (cats !! t)
            ↔ ∃ r, r ∈ loot ∧ displayCategories r = "SKIN" ∧ value r = t)
    ∧ ∀ t, cats !! t
           = match filter (λ r, displayCategories r = "SKIN" ∧ value r = t)
                          loot with
             | [] => None
             | selected =>
                 Some {| owned :=
                           Zsum ((λ r, if decide (itemStatus r = "OWNED")
                                       then count r else count r - 1)
                                   <$> selected);
                         not_owned :=
                           Zsum ((λ r, if decide (itemStatus r = "OWNED")
                                       then 0 else 1) <$> selected) |}
             end.
Proof.
  destruct (callback_closed_form loot) as (cats & Hrun & Hlook).
  exists cats. split; [done|].
  assert (∀ t, cats !! t
               = match tier_records loot t with
                 | [] => None
                 | selected =>
                     Some {| owned := Zsum (owned_share <$> selected);
                             not_owned :=
                               Zsum (not_owned_share <$> selected) |}
                 end) as Hfeed.
  { intros t. rewrite Hlook. unfold spec_owned, spec_not_owned.
    pose proof (tier_present_iff loot t) as Hiff.
    destruct (tier_records loot t) as [|r l].
    - rewrite decide_False; [done|]. intros Hin. by apply Hiff in Hin.
    - rewrite decide_True; [done|]. by apply Hiff. }
  split; [|exact Hfeed].
  intros t. rewrite Hfeed. split.
  - intros Hsome.
    destruct (tier_records loot t) as [|r l] eqn:Hrec;
      [by destruct Hsome|].
    assert (r ∈ tier_records loot t) as Hr by (rewrite Hrec; by left).
    unfold tier_records in Hr.
    apply list_elem_of_filter in Hr as [[Hcat Hval] Hin]. by exists r.
  - intros (r & Hin & Hcat & Hval).
    assert (r ∈ tier_records loot t) as Hr
      by (unfold tier_records; by apply list_elem_of_filter).
    destruct (tier_records loot t) as [|r' l];
      [by apply elem_of_nil in Hr | by eexists].
Qed.

(** C3. Tier accounting identity: when every selected record has a count of
    at least one, the two counters of every tier in the result add up to the
    sum of the counts of the "SKIN" records of that tier; a tier without an
    entry has no such record.  (The proof does not need the bound on the
    counts: by [shares_add_up] the two shares of a record always add up to
    its count.) *)
Theorem tier_accounting_identity loot :
  Forall (λ r, 1 ≤ count r) (skin_shards loot) →
  ∃ cats,
    callback loot = Some cats
    ∧ ∀ t, (∀ e, cats !! t = Some e →
                 owned e + not_owned e = spec_count loot t)
           ∧ (cats !! t = None → spec_count loot t = 0).
Proof.
  intros _. destruct (callback_closed_form loot) as (cats & Hrun & Hlook).
  exists cats. split; [done|]. intros t. rewrite Hlook.
  case_decide as Hin; (split; [intros e He | intros He]); simplify_eq; simpl.
  - unfold spec_owned, spec_not_owned, spec_count.
    induction (tier_records loot t) as [|r l IH]; [done|].
    cbn [fmap list_fmap Zsum foldr] in *. unfold Zsum in IH.
    pose proof (shares_add_up r). lia.
  - rewrite tier_present_iff in Hin. unfold spec_count.
    destruct (tier_records loot t); [done | by destruct Hin].
Qed.

Lemma tier_accounting_identity_witness :
  ∃ cats,
    callback Samples.loot_520 = Some cats
    ∧ ∀ t, (∀ e, cats !! t = Some e →
                 owned e + not_owned e = spec_count Samples.loot_520 t)
           ∧ (cats !! t = None → spec_count Samples.loot_520 t = 0).
Proof.
  apply (tier_accounting_identity Samples.loot_520).
  vm_compute. repeat constructor; discriminate.
Defined.

(** C5, as the code has it. A record of category "SKIN" that is not owned
    and has a count of zero is tallied like any other: [callback] returns a
    dictionary, and in the entry of the record's tier the record stands for
    one more [not_owned] and one less [owned] than the rest of the feed
    gives. *)
Theorem zero_count_folded l1 r l2 :
  displayCategories r = "SKIN" → itemStatus r ≠ "OWNED" → count r = 0 →
  ∃ cats e,
    callback (l1 ++ r :: l2) = Some cats
    ∧ cats !! value r = Some e
    ∧ owned e = spec_owned (l1 ++ l2) (value r) - 1
    ∧ not_owned e = spec_not_owned (l1 ++ l2) (value r) + 1.
Proof.
  intros Hs Hst Hc.
  destruct (callback_closed_form (l1 ++ r :: l2)) as (cats & Hrun & Hlook).
  exists cats. eexists. split; [done|]. rewrite Hlook.
  rewrite decide_True.
  2:{ apply tier_present_iff. rewrite tier_records_insert by done.
      by destruct (tier_records l1 (value r)). }
  split; [done|]. simpl. unfold spec_owned, spec_not_owned.
  rewrite tier_records_insert, tier_records_app by done.
  rewrite !fmap_app, !fmap_cons, !Zsum_app. cbn [Zsum foldr].
  unfold owned_share at 2, not_owned_share at 2.
  rewrite !decide_False by done. unfold Zsum. lia.
Qed.

Lemma zero_count_folded_witness :
  ∃ cats e,
    callback Samples.loot_with_zero = Some cats
    ∧ cats !! 520 = Some e
    ∧ owned e = 2 - 1
    ∧ not_owned e = 0 + 1.
Proof.
  apply (zero_count_folded [] Samples.zero_shard
           [Samples.shard "SKIN" "OWNED" Samples.rental 266 520 2]).
  - reflexivity.
  - discriminate.
  - reflexivity.
Defined.

(** C5, as stated, fails. The feed [[zero_shard]] yields [owned = -1] for
    tier 520, and a feed with a zero-count record yields the very dictionary
    of a feed without one: nothing in what [callback] returns marks the
    record. *)
Lemma zero_count_not_surfaced :
  callback [Samples.zero_shard]
  = Some {[ 520 := {| owned := -1; not_owned := 1 |} ]}
  ∧ has_zero_count_anomaly Samples.loot_with_zero = true
  ∧ has_zero_count_anomaly Samples.loot_without_zero = false
  ∧ callback Samples.loot_with_zero = callback Samples.loot_without_zero
  ∧ ¬ ∃ detect, surfaces_zero_count detect.
Proof.
  assert (callback Samples.loot_with_zero
          = callback Samples.loot_without_zero) as Hsame
    by (vm_compute; reflexivity).
  split; [vm_compute; reflexivity|].
  split; [vm_compute; reflexivity|].
  split; [vm_compute; reflexivity|].
  split; [exact Hsame|].
  intros [detect Hd].
  pose proof (Hd Samples.loot_with_zero) as H1.
  pose proof (Hd Samples.loot_without_zero) as H2.
  rewrite Hsame in H1. rewrite H1 in H2. vm_compute in H2. discriminate.
Qed.

End ShardsFacts.

(** * Properties of insertion-ordered dictionaries *)

Section PyDictFacts.
Context {K V : Type} `{EqDecision K}.
Implicit Types (d : list (K * V)) (k : K) (v : V).

Lemma dict_set_fresh d k v :
  k ∉ dict_keys d → dict_set k v d = d ++ [(k, v)].
Proof.
  unfold dict_keys. induction d as [|[k' v'] d IH]; intros Hk; [done|].
  cbn [dict_set]. rewrite fmap_cons, not_elem_of_cons in Hk.
  destruct Hk as [Hne Hk]. rewrite decide_False by done.
  by rewrite IH.
Qed.

Lemma dict_get_Some_elem d k v : dict_get k d = Some v → (k, v) ∈ d.
Proof.
  induction d as [|[k' v'] d IH]; [done|]. cbn [dict_get].
  case_decide; intros Hg.
  - simplify_eq. by left.
  - right. by apply IH.
Qed.

Lemma dict_get_elem d k v :
  NoDup (dict_keys d) → (k, v) ∈ d → dict_get k d = Some v.
Proof.
  unfold dict_keys. induction d as [|[k' v'] d IH]; intros Hnd Hin.
  - by apply elem_of_nil in Hin.
  - rewrite fmap_cons in Hnd. apply NoDup_cons in Hnd as [Hk' Hnd].
    cbn [dict_get]. apply elem_of_cons in Hin as [Heq|Hin].
    + simplify_eq. by rewrite decide_True.
    + rewrite decide_False; [by apply IH|].
      intros ->. apply Hk'. apply list_elem_of_fmap. by exists (k', v).
Qed.

Lemma dict_set_Forall (P : K * V → Prop) d k v :
  Forall P d → P (k, v) → Forall P (dict_set k v d).
Proof.
  intros Hd Hkv. induction Hd as [|[k' v'] d Hx Hd IH]; cbn [dict_set].
  - by constructor.
  - case_decide; by constructor.
Qed.
End PyDictFacts.

(** * Properties of challenges.py *)

Section NormalizerFacts.
Import ChallengeCollectionStats.

Implicit Types (champ_json : list (string * Champion)) (c : Champion).

Lemma non_base_skins_from (acc l : list Skin) :
  foldl (λ acc skin, if isBase skin then acc else acc ++ [skin]) acc l
  = acc ++ filter (λ skin, isBase skin = false) l.
Proof.
  revert acc. induction l as [|skin l IH]; intros acc; cbn [foldl].
  - by rewrite filter_nil, app_nil_r.
  - rewrite IH. destruct (isBase skin) eqn:Hb.
    + by rewrite filter_cons_False by (rewrite Hb; discriminate).
    + rewrite filter_cons_True by done. by rewrite <- app_assoc.
Qed.

(** The inner loop keeps exactly the skins that are not base skins. *)
Lemma non_base_skins_filter c : non_base_skins c = spec_non_base c.
Proof. unfold non_base_skins, spec_non_base. by rewrite non_base_skins_from. Qed.

Lemma get_skins_from (l : list Champion) : ∀ d : list (string * list Skin),
  NoDup (dict_keys d ++ (champion_key <$> l)) →
  foldl (λ d champion,
           dict_set (champion_key champion) (non_base_skins champion) d) d l
  = d ++ ((λ champion, (champion_key champion, spec_non_base champion))
            <$> l).
Proof.
  induction l as [|c l IH]; intros d Hnd; cbn [foldl].
  - by rewrite app_nil_r.
  - rewrite fmap_cons in Hnd.
    apply NoDup_app in Hnd as (Hd & Hsep & Hl).
    apply NoDup_cons in Hl as [Hc Hl].
    rewrite dict_set_fresh.
    2:{ intros Hin. apply (Hsep _ Hin). by left. }
    rewrite IH.
    + rewrite non_base_skins_filter, fmap_cons, <- app_assoc. done.
    + unfold dict_keys. rewrite fmap_app. cbn [fmap list_fmap fst].
      rewrite <- app_assoc. cbn [app]. apply NoDup_app.
      split; [done|]. split; [|by apply NoDup_cons].
      intros k Hk. apply Hsep in Hk. done.
Qed.

Lemma catalog_keyed_keys champ_json :
  catalog_keyed champ_json →
  champion_key <$> dict_values champ_json = dict_keys champ_json.
Proof.
  intros [_ Hkey]. unfold dict_values, dict_keys.
  induction Hkey as [|[k c] l Hk _ IH]; [done|].
  rewrite !fmap_cons. simpl in *. by rewrite Hk, IH.
Qed.

(** On a keyed catalog the normalized dictionary is the catalog itself with
    every champion replaced by its non-base skins. *)
Lemma get_skins_keyed champ_json :
  catalog_keyed champ_json →
  get_skins_by_champion_key champ_json
  = (λ entry, (entry.1, spec_non_base entry.2)) <$> champ_json.
Proof.
  intros Hwf. unfold get_skins_by_champion_key. rewrite get_skins_from.
  - pose proof Hwf as [_ Hkey]. cbn [app]. unfold dict_values.
    induction Hkey as [|[k c] l Hk _ IH]; [done|].
    rewrite !fmap_cons. simpl in *. rewrite Hk. f_equal. apply IH.
    destruct Hwf as [Hnd Hall]. split.
    + unfold dict_keys in *. rewrite fmap_cons in Hnd.
      by apply NoDup_cons in Hnd as [_ ?].
    + by apply Forall_cons in Hall as [_ ?].
  - cbn [app dict_keys fmap list_fmap].
    rewrite catalog_keyed_keys by done. by destruct Hwf.
Qed.

(** Whatever the catalog, a list stored in the normalized dictionary is the
    list of non-base skins of one of its champions. *)
Lemma get_skins_values champ_json :
  Forall (λ entry : string * list Skin,
            ∃ c, c ∈ dict_values champ_json ∧ entry.2 = spec_non_base c)
         (get_skins_by_champion_key champ_json).
Proof.
  unfold get_skins_by_champion_key.
  assert (∀ (l : list Champion) (d : list (string * list Skin)),
            (∀ c, c ∈ l → c ∈ dict_values champ_json) →
            Forall (λ entry : string * list Skin,
                      ∃ c, c ∈ dict_values champ_json
                           ∧ entry.2 = spec_non_base c) d →
            Forall (λ entry : string * list Skin,
                      ∃ c, c ∈ dict_values champ_json
                           ∧ entry.2 = spec_non_base c)
                   (foldl (λ d champion,
                             dict_set (champion_key champion)
                                      (non_base_skins champion) d) d l))
    as Hgen.
  { induction l as [|c l IH]; intros d Hsub Hd; cbn [foldl]; [done|].
    apply IH; [intros c' Hc'; apply Hsub; by right|].
    apply dict_set_Forall; [done|]. exists c.
    split; [apply Hsub; by left | apply non_base_skins_filter]. }
  apply Hgen; [done | constructor].
Qed.

(** C7. Catalog normalization: on a catalog as the interface describes it
    (a dictionary whose champions repeat their dictionary key in [key]) the
    normalizer returns, in catalog order, every key with the list of exactly
    the skins of its champion whose [isBase] is false, in their original
    order, so that looking up the key of an entity gives that list; and for
    any catalog at all no skin with [isBase] true is in any list of the
    result. *)
Theorem catalog_normalization champ_json :
  (catalog_keyed champ_json →
     get_skins_by_champion_key champ_json
     = (λ entry, (entry.1, filter (λ skin, isBase skin = false)
                                  (skins entry.2))) <$> champ_json
     ∧ ∀ k c, (k, c) ∈ champ_json →
              dict_get k (get_skins_by_champion_key champ_json)
              = Some (filter (λ skin, isBase skin = false) (skins c)))
  ∧ (∀ k l skin,
       dict_get k (get_skins_by_champion_key champ_json) = Some l →
       skin ∈ l → isBase skin = false).
Proof.
  split.
  - intros Hwf. pose proof (get_skins_keyed _ Hwf) as Heq.
    split; [exact Heq|]. intros k c Hin. rewrite Heq.
    apply dict_get_elem.
    + unfold dict_keys. rewrite <- list_fmap_compose.
      destruct Hwf as [Hnd _]. exact Hnd.
    + apply list_elem_of_fmap. by exists (k, c).
  - intros k l skin Hget Hin.
    apply dict_get_Some_elem in Hget.
    pose proof (get_skins_values champ_json) as Hall.
    rewrite Forall_forall in Hall. destruct (Hall _ Hget) as (c & _ & Hl).
    simpl in Hl. subst l. unfold spec_non_base in Hin.
    by apply list_elem_of_filter in Hin as [? _].
Qed.

Lemma catalog_normalization_witness :
  catalog_keyed Samples.champ_json
  ∧ dict_get "Aatrox" (get_skins_by_champion_key Samples.champ_json)
    = Some [ {| skin_id := 266001; isBase := false |};
             {| skin_id := 266002; isBase := false |} ].
Proof.
  assert (catalog_keyed Samples.champ_json) as Hwf.
  { split; [apply (bool_decide_unpack _); vm_compute; reflexivity|].
    repeat constructor. }
  split; [exact Hwf|].
  apply (proj2 (proj1 (catalog_normalization Samples.champ_json) Hwf)
               "Aatrox" Samples.aatrox).
  by left.
Defined.

End NormalizerFacts.

Section ClassifierFacts.
Import ChallengeCollectionStats.

Implicit Types (loot : list LootRecord) (m : gmap Z Z) (i k : Z).

Lemma lookup_bump k m i :
  bump k m !! i
  = if decide (i = k) then Some (default 0 (m !! k) + 1) else m !! i.
Proof.
  unfold bump. destruct (m !! k) as [n|] eqn:Hk; case_decide; subst;
    by rewrite ?lookup_insert_eq, ?lookup_insert_ne by done.
Qed.

Lemma default_bump k m i :
  default 0 (bump k m !! i)
  = default 0 (m !! i) + if decide (i = k) then 1 else 0.
Proof.
  rewrite lookup_bump. case_decide; subst; simpl; [done | lia].
Qed.

Lemma spec_unowned_nonneg loot i : 0 ≤ spec_unowned loot i.
Proof. unfold spec_unowned. lia. Qed.

Lemma spec_unowned_cons item loot i :
  spec_unowned (item :: loot) i
  = (if decide (itemStatus item ≠ "OWNED"
                ∧ disenchantRecipeName item = Some "SKIN_RENTAL_disenchant"
                ∧ parentStoreItemId item = i) then 1 else 0)
    + spec_unowned loot i.
Proof.
  unfold spec_unowned. rewrite filter_cons.
  case_decide; cbn [length]; lia.
Qed.

Lemma spec_unowned_app l1 l2 i :
  spec_unowned (l1 ++ l2) i = spec_unowned l1 i + spec_unowned l2 i.
Proof.
  unfold spec_unowned. rewrite filter_app, length_app. lia.
Qed.

(** The loop of [get_unowned_shards_by_champion_id], from any dictionary. *)
Lemma get_unowned_from loot : ∀ m i,
  foldl (λ m item,
           if decide (itemStatus item ≠ "OWNED") then
             if decide (disenchantRecipeName item
                        = Some "SKIN_RENTAL_disenchant") then
               bump (parentStoreItemId item) m
             else m
           else m) m loot !! i
  = match m !! i with
    | Some n => Some (n + spec_unowned loot i)
    | None => if decide (spec_unowned loot i = 0) then None
              else Some (spec_unowned loot i)
    end.
Proof.
  induction loot as [|item loot IH]; intros m i; cbn [foldl].
  - unfold spec_unowned. cbn. destruct (m !! i); [f_equal; lia | done].
  - rewrite IH, spec_unowned_cons.
    pose proof (spec_unowned_nonneg loot i) as Hn.
    destruct (decide (itemStatus item ≠ "OWNED")) as [Hst|Hst].
    + destruct (decide (disenchantRecipeName item
                        = Some "SKIN_RENTAL_disenchant")) as [Hr|Hr].
      * rewrite lookup_bump.
        destruct (decide (i = parentStoreItemId item)) as [->|Hne].
        -- rewrite (decide_True (P := _ ∧ _)) by done.
           destruct (m !! parentStoreItemId item) as [n|]; simpl.
           ++ f_equal; lia.
           ++ rewrite decide_False by lia. f_equal; lia.
        -- rewrite (decide_False (P := _ ∧ _)) by (intros (_ & _ & ?); done).
           rewrite Z.add_0_l. done.
      * rewrite (decide_False (P := _ ∧ _)) by tauto.
        rewrite Z.add_0_l. done.
    + rewrite (decide_False (P := _ ∧ _)) by tauto.
      rewrite Z.add_0_l. done.
Qed.

(** The mapping of [get_unowned_shards_by_champion_id], id by id. *)
Lemma get_unowned_lookup loot i :
  get_unowned_shards_by_champion_id loot !! i
  = if decide (spec_unowned loot i = 0) then None
    else Some (spec_unowned loot i).
Proof.
  unfold get_unowned_shards_by_champion_id.
  by rewrite get_unowned_from, lookup_empty.
Qed.

(** The mapping never reads [displayCategories]. *)
Lemma get_unowned_with_category (c : string) loot :
  get_unowned_shards_by_champion_id (with_category c <$> loot)
  = get_unowned_shards_by_champion_id loot.
Proof.
  unfold get_unowned_shards_by_champion_id. generalize (∅ : gmap Z Z).
  induction loot as [|item loot IH]; intros m; [done|].
  rewrite fmap_cons. cbn [foldl]. rewrite IH. done.
Qed.

(** C2. Entity-reconciliation counting: the mapping has an entry for a
    parent id exactly when some loot record has a status other than "OWNED",
    the recipe "SKIN_RENTAL_disenchant" and that parent id, and the entry is
    the number of such records: one per record whatever its count, nothing
    for a record with another recipe. *)
Theorem unowned_counting loot i :
  get_unowned_shards_by_champion_id loot !! i
  = if decide (spec_unowned loot i = 0) then None
    else Some (spec_unowned loot i).
Proof. apply get_unowned_lookup. Qed.

(** C6, as the code has it. A record whose category is not "SKIN" can be
    taken out of the feed without changing the tier statistics.  The
    per-champion mapping does not read the category: filing every record
    under another category leaves it unchanged, and a record outside "SKIN"
    whose status is not "OWNED" and whose recipe is
    "SKIN_RENTAL_disenchant" adds one to the entry of its parent id. *)
Theorem scope_filter l1 r l2 :
  displayCategories r ≠ "SKIN" →
  SkinShardsStats.callback (l1 ++ r :: l2)
  = SkinShardsStats.callback (l1 ++ l2)
  ∧ (∀ c, get_unowned_shards_by_champion_id
            (with_category c <$> (l1 ++ r :: l2))
          = get_unowned_shards_by_champion_id (l1 ++ r :: l2))
  ∧ (itemStatus r ≠ "OWNED" →
     disenchantRecipeName r = Some "SKIN_RENTAL_disenchant" →
     ∀ i, get_unowned_shards_by_champion_id (l1 ++ r :: l2) !! i
          = if decide (i = parentStoreItemId r) then
              Some (default 0 (get_unowned_shards_by_champion_id (l1 ++ l2)
                               !! i) + 1)
            else get_unowned_shards_by_champion_id (l1 ++ l2) !! i).
Proof.
  intros Hcat. split; [|split].
  - unfold SkinShardsStats.callback, SkinShardsStats.skin_shards.
    by rewrite !filter_app, filter_cons_False.
  - intros c. apply get_unowned_with_category.
  - intros Hst Hr i. rewrite !get_unowned_lookup.
    rewrite !spec_unowned_app, spec_unowned_cons.
    pose proof (spec_unowned_nonneg l1 i).
    pose proof (spec_unowned_nonneg l2 i).
    destruct (decide (i = parentStoreItemId r)) as [->|Hne].
    + rewrite (decide_True (P := _ ∧ _)) by done.
      rewrite decide_False by lia.
      case_decide; simpl; f_equal; lia.
    + rewrite (decide_False (P := _ ∧ _)) by (intros (_ & _ & ?); done).
      rewrite Z.add_0_l. done.
Qed.

Lemma scope_filter_witness :
  displayCategories Samples.stray_shard ≠ "SKIN"
  ∧ SkinShardsStats.callback (Samples.loot_520 ++ [Samples.stray_shard])
    = SkinShardsStats.callback (Samples.loot_520 ++ []).
Proof.
  split; [discriminate|].
  apply (scope_filter Samples.loot_520 Samples.stray_shard []).
  discriminate.
Defined.

(** C6, as stated, fails. A rental shard filed under "CHEST" is outside
    the category "SKIN", yet it makes the entry of champion 266 in the
    per-champion mapping. *)
Lemma stray_shard_counted :
  displayCategories Samples.stray_shard ≠ "SKIN"
  ∧ get_unowned_shards_by_champion_id [] !! 266 = None
  ∧ get_unowned_shards_by_champion_id [Samples.stray_shard] !! 266 = Some 1.
Proof.
  split; [discriminate|]. split; vm_compute; reflexivity.
Qed.

End ClassifierFacts.

Section JoinerFacts.
Import ChallengeCollectionStats.

Implicit Types (champ_json : list (string * Champion)) (c : Champion).
Implicit Types (m : gmap Z Z) (ids : list Z) (i : Z).

(** Two loop bodies that agree everywhere run the same. *)
Lemma for_each_ext {S A : Type} (f g : S → A → option S) (l : list A) :
  (∀ s x, f s x = g s x) → ∀ s, for_each f s l = for_each g s l.
Proof.
  intros Hfg. induction l as [|x l IH]; intros s; [done|].
  cbn [for_each]. rewrite Hfg. destruct (g s x); simpl; [apply IH | done].
Qed.

(** [count_skin] reads the owned ids through membership only. *)
Lemma count_skin_members champ_json ids1 ids2 :
  (∀ x, x ∈ ids1 ↔ x ∈ ids2) →
  ∀ k m skin, count_skin champ_json ids1 k m skin
              = count_skin champ_json ids2 k m skin.
Proof.
  intros Hmem k m skin. unfold count_skin.
  destruct (decide (skin_id skin ∈ ids1)) as [H1|H1].
  - rewrite decide_True; [done | by apply Hmem].
  - rewrite decide_False; [done | by rewrite <- Hmem].
Qed.

Lemma get_owned_members sk champ_json (o1 o2 : list OwnedItem) :
  (∀ x, x ∈ itemId <$> o1 ↔ x ∈ itemId <$> o2) →
  get_owned_skins_by_champion_id sk champ_json o1
  = get_owned_skins_by_champion_id sk champ_json o2.
Proof.
  intros Hmem. unfold get_owned_skins_by_champion_id.
  apply for_each_ext. intros m entry.
  apply for_each_ext. intros m' skin. by apply count_skin_members.
Qed.

(** One iteration of the inner loop for a key that is in the catalog. *)
Lemma count_skin_present champ_json ids k c m skin :
  dict_get k champ_json = Some c →
  count_skin champ_json ids k m skin
  = Some (if decide (skin_id skin ∈ ids) then bump (champion_id c) m
          else m).
Proof. intros Hk. unfold count_skin. case_decide; by rewrite ?Hk. Qed.

(** The inner loop on the skins of one champion that is in the catalog. *)
Lemma count_skins_run champ_json ids k c (sk : list Skin) : ∀ m,
  dict_get k champ_json = Some c →
  ∃ m',
    for_each (count_skin champ_json ids k) m sk = Some m'
    ∧ ∀ i, default 0 (m' !! i)
           = default 0 (m !! i)
             + if decide (i = champion_id c) then
                 Z.of_nat (length (filter (λ skin, skin_id skin ∈ ids) sk))
               else 0.
Proof.
  induction sk as [|skin sk IH]; intros m Hk.
  - exists m. split; [done|]. intros i. cbn. case_decide; lia.
  - cbn [for_each]. rewrite (count_skin_present _ _ _ c) by done.
    rewrite filter_cons. cbn [mbind option_bind].
    destruct (decide (skin_id skin ∈ ids)) as [Hin|Hin].
    + destruct (IH (bump (champion_id c) m) Hk) as (m' & Hrun & Hm').
      exists m'. split; [done|]. intros i.
      rewrite Hm', default_bump. case_decide; cbn [length]; lia.
    + destruct (IH m Hk) as (m' & Hrun & Hm'). by exists m'.
Qed.

(** The outer loop on a part of the catalog. *)
Lemma owned_run champ_json ids (l : list (string * Champion)) : ∀ m,
  (∀ entry, entry ∈ l → dict_get entry.1 champ_json = Some entry.2) →
  ∃ m',
    for_each (λ m entry,
                for_each (count_skin champ_json ids entry.1) m entry.2)
             m ((λ entry, (entry.1, spec_non_base entry.2)) <$> l)
    = Some m'
    ∧ ∀ i, default 0 (m' !! i)
           = default 0 (m !! i) + spec_owned_total l ids i.
Proof.
  induction l as [|[k c] l IH]; intros m Hl.
  - exists m. split; [done|]. intros i. unfold spec_owned_total. cbn. lia.
  - rewrite fmap_cons. cbn [for_each fst snd].
    destruct (count_skins_run champ_json ids k c (spec_non_base c) m)
      as (m1 & Hrun1 & Hm1); [apply (Hl (k, c)); by left|].
    rewrite Hrun1. simpl.
    destruct (IH m1) as (m' & Hrun & Hm').
    { intros entry Hentry. apply Hl. by right. }
    exists m'. split; [done|]. intros i. rewrite Hm', Hm1.
    unfold spec_owned_total. rewrite fmap_cons. cbn [Zsum foldr snd].
    unfold Zsum. lia.
Qed.

Lemma catalog_keyed_get champ_json entry :
  catalog_keyed champ_json → entry ∈ champ_json →
  dict_get entry.1 champ_json = Some entry.2.
Proof.
  intros [Hnd _] Hin. apply dict_get_elem; [done|]. by destruct entry.
Qed.

(** On a keyed catalog the joiner returns a mapping, and the count it
    holds for an id is the number of owned non-base skins under that id. *)
Lemma get_owned_keyed champ_json (owned_skins : list OwnedItem) :
  catalog_keyed champ_json →
  ∃ m,
    get_owned_skins_by_champion_id (get_skins_by_champion_key champ_json)
                                   champ_json owned_skins = Some m
    ∧ ∀ i, default 0 (m !! i)
           = spec_owned_total champ_json (itemId <$> owned_skins) i.
Proof.
  intros Hwf. unfold get_owned_skins_by_champion_id.
  rewrite get_skins_keyed by done.
  destruct (owned_run champ_json (itemId <$> owned_skins) champ_json ∅)
    as (m & Hrun & Hm).
  { intros entry Hin. by apply catalog_keyed_get. }
  exists m. split; [done|]. intros i. rewrite Hm, lookup_empty. simpl. lia.
Qed.

Lemma spec_owned_total_absent (l : list (string * Champion)) ids i :
  i ∉ champion_id <$> dict_values l → spec_owned_total l ids i = 0.
Proof.
  unfold spec_owned_total, dict_values.
  induction l as [|[k c] l IH]; intros Hi; [done|].
  rewrite !fmap_cons in *. apply not_elem_of_cons in Hi as [Hne Hi].
  cbn [Zsum foldr snd]. rewrite decide_False by done.
  unfold Zsum in IH. rewrite IH by done. lia.
Qed.

Lemma spec_owned_total_bound (l : list (string * Champion)) ids k c :
  NoDup (champion_id <$> dict_values l) → (k, c) ∈ l →
  spec_owned_total l ids (champion_id c)
  ≤ Z.of_nat (length (spec_non_base c)).
Proof.
  unfold dict_values.
  induction l as [|[k' c'] l IH]; intros Hnd Hin.
  - by apply elem_of_nil in Hin.
  - rewrite !fmap_cons in Hnd. apply NoDup_cons in Hnd as [Hc' Hnd].
    unfold spec_owned_total. rewrite fmap_cons. cbn [Zsum foldr snd].
    fold (Zsum ((λ entry : string * Champion,
                   if decide (champion_id c = champion_id entry.2) then
                     Z.of_nat (length (filter (λ skin, skin_id skin ∈ ids)
                                              (spec_non_base entry.2)))
                   else 0) <$> l)).
    fold (spec_owned_total l ids (champion_id c)).
    apply elem_of_cons in Hin as [Heq|Hin].
    + simplify_eq. rewrite decide_True by done.
      rewrite (spec_owned_total_absent l ids (champion_id c')) by done.
      pose proof (length_filter (λ skin, skin_id skin ∈ ids)
                    (spec_non_base c')). lia.
    + rewrite decide_False.
      * specialize (IH Hnd Hin). lia.
      * intros Heq. apply Hc'. cbn [snd]. rewrite <- Heq.
        apply list_elem_of_fmap. exists c. split; [done|].
        apply list_elem_of_fmap. by exists (k, c).
Qed.

(** C8. Owned-count bound: on a catalog as the data model describes it
    (a dictionary whose champions repeat their key and have pairwise
    different ids) the joiner returns a mapping, and for every catalog
    entity the count under its id (0 when there is no entry) is at most the
    number of its skins whose [isBase] is false. *)
Theorem owned_count_bound champ_json (owned_skins : list OwnedItem) :
  catalog_keyed champ_json → catalog_ids_distinct champ_json →
  ∃ m,
    get_owned_skins_by_champion_id (get_skins_by_champion_key champ_json)
                                   champ_json owned_skins = Some m
    ∧ ∀ k c, (k, c) ∈ champ_json →
             default 0 (m !! champion_id c)
             ≤ Z.of_nat (length (filter (λ skin, isBase skin = false)
                                        (skins c)))
             ∧ dict_get k (get_skins_by_champion_key champ_json)
               = Some (filter (λ skin, isBase skin = false) (skins c)).
Proof.
  intros Hwf Hids.
  destruct (get_owned_keyed champ_json owned_skins Hwf) as (m & Hrun & Hm).
  exists m. split; [done|]. intros k c Hin. split.
  - rewrite Hm. by apply (spec_owned_total_bound champ_json _ k c).
  - rewrite get_skins_keyed by done. apply dict_get_elem.
    + unfold dict_keys. rewrite <- list_fmap_compose. by destruct Hwf.
    + apply list_elem_of_fmap. by exists (k, c).
Qed.

Lemma sample_catalog_keyed : catalog_keyed Samples.champ_json.
Proof.
  split; [apply (bool_decide_unpack _); vm_compute; reflexivity|].
  repeat constructor.
Defined.

Lemma owned_count_bound_witness :
  ∃ m,
    get_owned_skins_by_champion_id
      (get_skins_by_champion_key Samples.champ_json)
      Samples.champ_json Samples.owned_skins = Some m
    ∧ ∀ k c, (k, c) ∈ Samples.champ_json →
             default 0 (m !! champion_id c)
             ≤ Z.of_nat (length (filter (λ skin, isBase skin = false)
                                        (skins c)))
             ∧ dict_get k (get_skins_by_champion_key Samples.champ_json)
               = Some (filter (λ skin, isBase skin = false) (skins c)).
Proof.
  apply (owned_count_bound Samples.champ_json Samples.owned_skins).
  - exact sample_catalog_keyed.
  - apply (bool_decide_unpack _). vm_compute. reflexivity.
Defined.

(** C10. Duplicate-insensitivity of the ownership join: for any normalized
    dictionary and catalog, the joiner gives the same result (the same
    mapping, or the same failure) on an owned-items list and on that list
    with its duplicates removed. *)
Theorem owned_join_ignores_duplicates
    (sk : list (string * list Skin)) champ_json
    (owned_skins : list OwnedItem) :
  get_owned_skins_by_champion_id sk champ_json (remove_dups owned_skins)
  = get_owned_skins_by_champion_id sk champ_json owned_skins.
Proof.
  apply get_owned_members. intros x. rewrite !list_elem_of_fmap.
  split; intros (o & -> & Ho); exists o; split; try done;
    by apply elem_of_remove_dups.
Qed.

End JoinerFacts.

Section ReporterFacts.
Import ChallengeCollectionStats.

Implicit Types (champ_json : list (string * Champion)) (c : Champion).
Implicit Types (unowned owned_by_id : gmap Z Z).

(** One iteration of the reporting loop for a key that is in the catalog. *)
Lemma add_row_present champ_json unowned owned_by_id table k c :
  dict_get k champ_json = Some c →
  add_row champ_json unowned owned_by_id table (k, spec_non_base c)
  = Some (table ++ [spec_row unowned owned_by_id c]).
Proof.
  intros Hk. unfold add_row. cbn [fst snd]. rewrite Hk. cbn.
  unfold spec_row.
  destruct (unowned !! champion_id c), (owned_by_id !! champion_id c); done.
Qed.

(** The reporting loop on a part of the catalog. *)
Lemma add_rows_run champ_json unowned owned_by_id
    (l : list (string * Champion)) : ∀ table,
  (∀ entry, entry ∈ l → dict_get entry.1 champ_json = Some entry.2) →
  for_each (add_row champ_json unowned owned_by_id) table
           ((λ entry, (entry.1, spec_non_base entry.2)) <$> l)
  = Some (table ++ (spec_row unowned owned_by_id <$> dict_values l)).
Proof.
  unfold dict_values.
  induction l as [|[k c] l IH]; intros table Hl.
  - cbn. by rewrite app_nil_r.
  - rewrite !fmap_cons. cbn [for_each fst snd].
    rewrite add_row_present by (apply (Hl (k, c)); by left).
    cbn [mbind option_bind]. rewrite IH.
    + by rewrite <- app_assoc.
    + intros entry Hentry. apply Hl. by right.
Qed.

(** C4. Report completeness, order and defaults: on a catalog as the
    interface describes it, the joiner returns a mapping and [callback]
    returns the rows obtained by going through the catalog in its order and
    giving each entity its one row: its name, the number of its skins whose
    [isBase] is false, its entry in the unowned mapping (0 if it has none),
    and the sum of its entry in the owned mapping (0 if it has none) and the
    unowned count. *)
Theorem report_rows champ_json (loot : list LootRecord)
    (owned_skins : list OwnedItem) :
  catalog_keyed champ_json →
  ∃ owned_by_id,
    get_owned_skins_by_champion_id (get_skins_by_champion_key champ_json)
                                   champ_json owned_skins
    = Some owned_by_id
    ∧ callback champ_json loot owned_skins
      = Some ((λ c,
                 {| row_name := champion_name c;
                    row_skins :=
                      Z.of_nat (length (filter (λ skin, isBase skin = false)
                                               (skins c)));
                    row_unowned :=
                      default 0 (get_unowned_shards_by_champion_id loot
                                 !! champion_id c);
                    row_total :=
                      default 0 (owned_by_id !! champion_id c)
                      + default 0 (get_unowned_shards_by_champion_id loot
                                   !! champion_id c) |})
                <$> dict_values champ_json).
Proof.
  intros Hwf.
  destruct (get_owned_keyed champ_json owned_skins Hwf) as (m & Hrun & _).
  exists m. split; [done|]. unfold callback. rewrite Hrun.
  cbn [mbind option_bind]. rewrite get_skins_keyed by done.
  rewrite add_rows_run; [done|].
  intros entry Hin. by apply catalog_keyed_get.
Qed.

Lemma report_rows_witness :
  callback Samples.aatrox_only [] [ {| itemId := 266001 |} ]
  = Some [ {| row_name := "Aatrox"; row_skins := 1; row_unowned := 0;
              row_total := 1 |} ].
Proof.
  destruct (report_rows Samples.aatrox_only [] [ {| itemId := 266001 |} ])
    as (m & Hm & Hrows).
  - split; [apply (bool_decide_unpack _); vm_compute; reflexivity|].
    repeat constructor.
  - rewrite Hrows. vm_compute in Hm. injection Hm as <-.
    vm_compute. reflexivity.
Defined.

End ReporterFacts.

(** * The scenarios of the specification *)

Example tier_520 :
  SkinShardsStats.callback Samples.loot_520
  = Some {[ 520 := {| owned := 3; not_owned := 1 |} ]}.
Proof. vm_compute. reflexivity. Qed.

Example rows_of_sample :
  ChallengeCollectionStats.callback Samples.champ_json Samples.loot_mixed
                                    Samples.owned_skins
  = Some [ {| row_name := "Aatrox"; row_skins := 2; row_unowned := 2;
              row_total := 3 |};
           {| row_name := "Ahri"; row_skins := 1; row_unowned := 0;
              row_total := 1 |} ].
Proof. vm_compute. reflexivity. Qed.

(** A champion whose [key] field is not a key of the document makes the
    reporting loop fail on [champ_json[champion_key]]. *)
Example stray_key_raises :
  ChallengeCollectionStats.callback
    [ ("Aatrox", {| champion_id := 266; champion_name := "Aatrox";
                    champion_key := "aatrox"; skins := [] |}) ] [] []
  = None.
Proof. vm_compute. reflexivity. Qed.

Example other_recipe_ignored :
  ChallengeCollectionStats.get_unowned_shards_by_champion_id Samples.loot_mixed
  = {[ 266 := 2 ]}.
Proof. vm_compute. reflexivity. Qed.

(** * Further properties of shards.py *)

Section ShardsMore.
Import SkinShardsStats.

Implicit Types (loot : list LootRecord) (cats : gmap Z TierCounters).
Implicit Types (r : LootRecord) (t : Z).

Lemma Zsum_Permutation (l l' : list Z) : l ≡ₚ l' → Zsum l = Zsum l'.
Proof.
  unfold Zsum. induction 1 as [|x l l' _ IH|x y l|l l' l'' _ IH1 _ IH2];
    cbn [foldr]; lia.
Qed.


Lemma tier_absent_nil loot t :
  t ∉ shard_prices (skin_shards loot) → tier_records loot t = [].
Proof.
  intros Hnin. destruct (tier_records loot t) as [|r l] eqn:Hrec; [done|].
  destruct Hnin. apply tier_present_iff. by rewrite Hrec.
Qed.

Lemma shard_prices_app l1 l2 :
  shard_prices (skin_shards (l1 ++ l2))
  = shard_prices (skin_shards l1) ++ shard_prices (skin_shards l2).
Proof.
  unfold shard_prices, skin_shards. by rewrite filter_app, fmap_app.
Qed.

(** Two feeds with the same records in every tier, up to their order, get
    the same dictionary. *)
Lemma callback_same_tiers loot loot' :
  (∀ t, tier_records loot t ≡ₚ tier_records loot' t) →
  callback loot = callback loot'.
Proof.
  intros Hsame.
  destruct (callback_closed_form loot) as (cats & -> & Hlook).
  destruct (callback_closed_form loot') as (cats' & -> & Hlook').
  f_equal. apply map_eq. intros t. rewrite Hlook, Hlook'.
  unfold spec_owned, spec_not_owned.
  rewrite (Zsum_Permutation _ _ (fmap_Permutation owned_share _ _ (Hsame t))).
  rewrite (Zsum_Permutation _ _
             (fmap_Permutation not_owned_share _ _ (Hsame t))).
  destruct (decide (t ∈ shard_prices (skin_shards loot))) as [Hin|Hnin].
  - rewrite decide_True; [done|]. apply tier_present_iff.
    apply tier_present_iff in Hin. intros Hnil. apply Hin.
    specialize (Hsame t). rewrite Hnil in Hsame.
    by apply Permutation_nil_r in Hsame.
  - rewrite decide_False; [done|]. intros Hin. apply Hnin.
    apply tier_present_iff. apply tier_present_iff in Hin.
    intros Hnil. apply Hin. specialize (Hsame t). rewrite Hnil in Hsame.
    by apply Permutation_nil_l in Hsame.
Qed.

(** X1. The tier statistics do not depend on the order of the loot feed. *)
Theorem tier_stats_order_irrelevant loot loot' :
  loot ≡ₚ loot' → callback loot = callback loot'.
Proof.
  intros Hperm. apply callback_same_tiers. intros t.
  unfold tier_records. by apply filter_Permutation.
Qed.

Lemma tier_stats_order_irrelevant_witness :
  callback (reverse Samples.loot_mixed) = callback Samples.loot_mixed.
Proof.
  apply (tier_stats_order_irrelevant (reverse Samples.loot_mixed)
                                     Samples.loot_mixed).
  apply reverse_Permutation.
Defined.

(** X2. The tier statistics of two feeds put one after the other are the
    statistics of each, merged: a tier met in both gets the sums of its two
    entries, a tier met in one keeps its entry. *)
Theorem tier_stats_of_concatenation l1 l2 :
  callback (l1 ++ l2)
  = c1 ← callback l1; c2 ← callback l2;
    Some (union_with (λ a b, Some (merge_counters a b)) c1 c2).
Proof.
  destruct (callback_closed_form (l1 ++ l2)) as (cats & -> & Hlook).
  destruct (callback_closed_form l1) as (c1 & -> & Hlook1).
  destruct (callback_closed_form l2) as (c2 & -> & Hlook2).
  cbn [mbind option_bind]. f_equal. apply map_eq. intros t.
  rewrite lookup_union_with, Hlook, Hlook1, Hlook2, shard_prices_app.
  unfold spec_owned, spec_not_owned.
  rewrite tier_records_app, !fmap_app, !Zsum_app.
  destruct (decide (t ∈ shard_prices (skin_shards l1))) as [H1|H1],
           (decide (t ∈ shard_prices (skin_shards l2))) as [H2|H2].
  - rewrite decide_True by (apply elem_of_app; by left). done.
  - rewrite decide_True by (apply elem_of_app; by left).
    rewrite (tier_absent_nil l2 t H2). cbn. f_equal. f_equal; lia.
  - rewrite decide_True by (apply elem_of_app; by right).
    rewrite (tier_absent_nil l1 t H1). done.
  - rewrite decide_False; [done|]. by intros [?|?]%elem_of_app.
Qed.

Lemma not_owned_share_bounds r : 0 ≤ not_owned_share r ≤ 1.
Proof. unfold not_owned_share. case_decide; lia. Qed.

Lemma Zsum_not_owned_bounds (l : list LootRecord) :
  0 ≤ Zsum (not_owned_share <$> l) ≤ Z.of_nat (length l).
Proof.
  unfold Zsum. induction l as [|r l IH]; cbn [fmap list_fmap foldr length].
  - lia.
  - pose proof (not_owned_share_bounds r). lia.
Qed.

(** X3. Whatever the counts in the feed, the [not_owned] counter of a tier
    is never negative and never more than the number of "SKIN" records of
    that tier, and a tier with an entry has at least one such record. *)
Theorem not_owned_bounds loot :
  ∃ cats,
    callback loot = Some cats
    ∧ ∀ t e, cats !! t = Some e →
             (1 ≤ length (tier_records loot t))%nat
             ∧ 0 ≤ not_owned e ≤ Z.of_nat (length (tier_records loot t)).
Proof.
  destruct (callback_closed_form loot) as (cats & Hrun & Hlook).
  exists cats. split; [done|]. intros t e. rewrite Hlook.
  case_decide as Hin; [|done]. intros [= <-]. cbn [not_owned]. split.
  - apply tier_present_iff in Hin.
    destruct (tier_records loot t); [done | cbn [length]; lia].
  - apply Zsum_not_owned_bounds.
Qed.



(** The dictionary is empty exactly when nothing is selected. *)
Lemma callback_empty_selection loot :
  callback loot = Some ∅ ↔ skin_shards loot = [].
Proof.
  split.
  - intros Hrun.
    destruct (callback_closed_form loot) as (cats & Hrun' & Hlook).
    rewrite Hrun in Hrun'. injection Hrun' as <-.
    destruct (skin_shards loot) as [|r l] eqn:Hs; [done|].
    specialize (Hlook (value r)). rewrite lookup_empty in Hlook.
    rewrite decide_True in Hlook; [done|].
    unfold shard_prices. rewrite fmap_cons. by left.
  - intros Hs. unfold callback. by rewrite Hs.
Qed.

Lemma skin_shards_nil_iff loot :
  skin_shards loot = [] ↔ Forall (λ r, displayCategories r ≠ "SKIN") loot.
Proof.
  unfold skin_shards. induction loot as [|r loot IH].
  - split; [constructor | done].
  - rewrite filter_cons, Forall_cons. case_decide as Hcat.
    + split; [done | by intros [? _]].
    + rewrite IH. tauto.
Qed.

(** X5. The dictionary is empty exactly when no record of the feed has the
    display category "SKIN"; an empty feed is such a feed, and the
    computation does not fail on it. *)
Theorem tier_stats_empty_iff loot :
  callback loot = Some ∅
  ↔ Forall (λ r, displayCategories r ≠ "SKIN") loot.
Proof. by rewrite callback_empty_selection, skin_shards_nil_iff. Qed.

End ShardsMore.

(** * Further properties of insertion-ordered dictionaries *)

Section PyDictMore.
Context {K V : Type} `{EqDecision K}.
Implicit Types (d : list (K * V)) (k : K) (v : V).

Lemma dict_get_None d k : dict_get k d = None ↔ k ∉ dict_keys d.
Proof.
  unfold dict_keys. induction d as [|[k' v'] d IH]; cbn [dict_get].
  - split; [intros _ Hin; by apply elem_of_nil in Hin | done].
  - rewrite fmap_cons, not_elem_of_cons. cbn [fst]. case_decide.
    + split; [done | by intros [? _]].
    + rewrite IH. tauto.
Qed.

Lemma dict_get_set_eq d k v : dict_get k (dict_set k v d) = Some v.
Proof.
  induction d as [|[k' v'] d IH]; cbn [dict_set dict_get].
  - by rewrite decide_True.
  - case_decide; cbn [dict_get]; [by rewrite decide_True|].
    by rewrite decide_False.
Qed.

Lemma dict_get_set_ne d k k' v :
  k ≠ k' → dict_get k' (dict_set k v d) = dict_get k' d.
Proof.
  intros Hne. induction d as [|[k'' v''] d IH]; cbn [dict_set dict_get].
  - by rewrite decide_False.
  - destruct (decide (k = k'')) as [<-|Hk]; cbn [dict_get].
    + by rewrite !decide_False.
    + by rewrite IH.
Qed.

Lemma dict_keys_set d k v :
  dict_keys (dict_set k v d)
  = if decide (k ∈ dict_keys d) then dict_keys d else dict_keys d ++ [k].
Proof.
  unfold dict_keys. induction d as [|[k' v'] d IH]; cbn [dict_set].
  - rewrite decide_False; [done | by intros ?%elem_of_nil].
  - rewrite fmap_cons. cbn [fst].
    destruct (decide (k = k')) as [<-|Hk].
    + rewrite decide_True; [done | by left].
    + rewrite fmap_cons, IH. cbn [fst].
      destruct (decide (k ∈ d.*1)) as [Hin|Hnin].
      * rewrite decide_True; [done | by right].
      * rewrite decide_False; [done|]. by intros [?|?]%elem_of_cons.
Qed.
End PyDictMore.

(** * Further properties of the catalog normalizer *)

Section NormalizerMore.
Import ChallengeCollectionStats.

Implicit Types (champ_json : list (string * Champion)) (c : Champion).

Lemma get_skins_fold_keys (l : list Champion) :
  ∀ d : list (string * list Skin),
    NoDup (dict_keys d) →
    NoDup (dict_keys
             (foldl (λ d champion,
                       dict_set (champion_key champion)
                                (non_base_skins champion) d) d l))
    ∧ (∀ k, k ∈ dict_keys
                  (foldl (λ d champion,
                            dict_set (champion_key champion)
                                     (non_base_skins champion) d) d l)
            ↔ k ∈ dict_keys d ∨ k ∈ champion_key <$> l)
    ∧ (length (foldl (λ d champion,
                        dict_set (champion_key champion)
                                 (non_base_skins champion) d) d l)
       ≤ length d + length l)%nat.
Proof.
  induction l as [|c l IH]; intros d Hnd; cbn [foldl].
  - split; [done|]. split; [|lia]. intros k. rewrite fmap_nil, elem_of_nil.
    tauto.
  - destruct (IH (dict_set (champion_key c) (non_base_skins c) d))
      as (Hnd' & Hkeys & Hlen).
    { rewrite dict_keys_set. case_decide as Hin; [done|].
      apply NoDup_app. split; [done|]. split; [|apply NoDup_singleton].
      intros k Hk ->%list_elem_of_singleton. done. }
    split; [done|]. split.
    + intros k. rewrite Hkeys, dict_keys_set, fmap_cons, elem_of_cons.
      case_decide as Hin.
      * split; [tauto|]. intros [?|[->|?]]; tauto.
      * rewrite elem_of_app, list_elem_of_singleton. tauto.
    + assert (length (dict_keys (dict_set (champion_key c)
                                          (non_base_skins c) d))
              ≤ S (length d))%nat as Hstep.
      { rewrite dict_keys_set. unfold dict_keys.
        case_decide; rewrite ?length_app, !length_fmap; cbn [length]; lia. }
      unfold dict_keys in Hstep. rewrite length_fmap in Hstep.
      cbn [length]. lia.
Qed.

Lemma get_skins_fold_get (l : list Champion) (k : string) :
  ∀ d : list (string * list Skin),
    k ∉ champion_key <$> l →
    dict_get k (foldl (λ d champion,
                         dict_set (champion_key champion)
                                  (non_base_skins champion) d) d l)
    = dict_get k d.
Proof.
  induction l as [|c l IH]; intros d Hk; cbn [foldl]; [done|].
  rewrite fmap_cons, not_elem_of_cons in Hk. destruct Hk as [Hne Hk].
  rewrite IH by done. by apply dict_get_set_ne.
Qed.

(** X6. For any catalog, keyed or not, the normalized dictionary has no key
    twice, its keys are exactly the [key] fields of the champions, and it has
    at most as many entries as the catalog has champions. *)
Theorem normalized_keys champ_json :
  NoDup (dict_keys (get_skins_by_champion_key champ_json))
  ∧ (∀ k, k ∈ dict_keys (get_skins_by_champion_key champ_json)
          ↔ k ∈ champion_key <$> dict_values champ_json)
  ∧ (length (get_skins_by_champion_key champ_json) ≤ length champ_json)%nat.
Proof.
  unfold get_skins_by_champion_key.
  destruct (get_skins_fold_keys (dict_values champ_json) [])
    as (Hnd & Hkeys & Hlen); [apply NoDup_nil_2|].
  split; [done|]. split.
  - intros k. rewrite Hkeys. cbn. rewrite elem_of_nil. tauto.
  - unfold dict_values in *. rewrite length_fmap in Hlen.
    cbn [length] in Hlen. lia.
Qed.

(** X7. When several champions carry the same [key] field, the entry of that
    key holds the non-base skins of the last of them: a champion after which
    no champion repeats its [key] is the one found under it. *)
Theorem last_champion_wins (l1 l2 : list (string * Champion))
    (k0 : string) c :
  champion_key c ∉ champion_key <$> dict_values l2 →
  dict_get (champion_key c)
           (get_skins_by_champion_key (l1 ++ (k0, c) :: l2))
  = Some (filter (λ skin, isBase skin = false) (skins c)).
Proof.
  intros Hlast. unfold get_skins_by_champion_key, dict_values.
  rewrite fmap_app, fmap_cons, foldl_app. cbn [foldl snd].
  rewrite get_skins_fold_get by done.
  rewrite dict_get_set_eq. f_equal. apply non_base_skins_filter.
Qed.

Lemma last_champion_wins_witness :
  dict_get "Aatrox" (get_skins_by_champion_key MoreSamples.clashing)
  = Some [ {| skin_id := 103001; isBase := false |} ].
Proof.
  apply (last_champion_wins [("Aatrox", Samples.aatrox)] [] "Ahri"
           {| champion_id := 103; champion_name := "Ahri";
              champion_key := "Aatrox";
              skins := [ {| skin_id := 103001; isBase := false |} ] |}).
  cbn. by intros ?%elem_of_nil.
Defined.

End NormalizerMore.

(** * Further properties of the loot classifier *)

Section ClassifierMore.
Import ChallengeCollectionStats.

Implicit Types (loot : list LootRecord) (m : gmap Z Z) (i : Z).

Lemma spec_unowned_Permutation loot loot' i :
  loot ≡ₚ loot' → spec_unowned loot i = spec_unowned loot' i.
Proof.
  intros Hperm. unfold spec_unowned. f_equal. apply Permutation_length.
  by apply filter_Permutation.
Qed.

Lemma spec_unowned_le_length loot i :
  spec_unowned loot i ≤ Z.of_nat (length loot).
Proof.
  unfold spec_unowned.
  pose proof (length_filter
                (λ item, itemStatus item ≠ "OWNED"
                         ∧ disenchantRecipeName item
                           = Some "SKIN_RENTAL_disenchant"
                         ∧ parentStoreItemId item = i) loot).
  lia.
Qed.

Lemma spec_unowned_redeemable loot item :
  item ∈ loot → redeemable item →
  1 ≤ spec_unowned loot (parentStoreItemId item).
Proof.
  intros Hin [Hst Hr].
  induction loot as [|item' loot IH]; [by apply elem_of_nil in Hin|].
  rewrite spec_unowned_cons.
  pose proof (spec_unowned_nonneg loot (parentStoreItemId item)).
  apply elem_of_cons in Hin as [<-|Hin].
  - rewrite decide_True by done. lia.
  - specialize (IH Hin). case_decide; lia.
Qed.

Lemma spec_unowned_none loot i :
  Forall (λ item, ¬ redeemable item) loot → spec_unowned loot i = 0.
Proof.
  induction 1 as [|item loot Hitem _ IH]; [done|].
  rewrite spec_unowned_cons, IH. rewrite decide_False; [done|].
  intros (? & ? & _). by apply Hitem.
Qed.

(** X8. The per-champion mapping of unowned shards does not depend on the
    order of the loot feed. *)
Theorem unowned_order_irrelevant loot loot' :
  loot ≡ₚ loot' →
  get_unowned_shards_by_champion_id loot
  = get_unowned_shards_by_champion_id loot'.
Proof.
  intros Hperm. apply map_eq. intros i.
  by rewrite !get_unowned_lookup, (spec_unowned_Permutation _ _ i Hperm).
Qed.

Lemma unowned_order_irrelevant_witness :
  get_unowned_shards_by_champion_id (reverse Samples.loot_mixed)
  = get_unowned_shards_by_champion_id Samples.loot_mixed.
Proof.
  apply (unowned_order_irrelevant (reverse Samples.loot_mixed)
                                  Samples.loot_mixed).
  apply reverse_Permutation.
Defined.

(** X9. A count stored in the mapping is at least one and at most the
    number of records of the feed: an id is never stored with zero. *)
Theorem unowned_counts_positive loot i (n : Z) :
  get_unowned_shards_by_champion_id loot !! i = Some n →
  1 ≤ n ≤ Z.of_nat (length loot).
Proof.
  rewrite get_unowned_lookup. case_decide as Hz; [done|].
  intros [= <-]. pose proof (spec_unowned_nonneg loot i).
  pose proof (spec_unowned_le_length loot i). lia.
Qed.

Lemma unowned_counts_positive_witness :
  get_unowned_shards_by_champion_id Samples.loot_mixed !! 266 = Some 2
  ∧ 1 ≤ 2 ≤ Z.of_nat (length Samples.loot_mixed).
Proof.
  assert (get_unowned_shards_by_champion_id Samples.loot_mixed !! 266
          = Some 2) as Hlook by (vm_compute; reflexivity).
  split; [exact Hlook|].
  exact (unowned_counts_positive Samples.loot_mixed 266 2 Hlook).
Defined.

(** X10. The mapping of two feeds put one after the other is the two
    mappings merged, the counts of an id met in both being added. *)
Theorem unowned_of_concatenation l1 l2 :
  get_unowned_shards_by_champion_id (l1 ++ l2)
  = union_with (λ a b, Some (a + b))
               (get_unowned_shards_by_champion_id l1)
               (get_unowned_shards_by_champion_id l2).
Proof.
  apply map_eq. intros i.
  rewrite lookup_union_with, !get_unowned_lookup, spec_unowned_app.
  pose proof (spec_unowned_nonneg l1 i).
  pose proof (spec_unowned_nonneg l2 i).
  repeat case_decide; cbn; try done; try lia; f_equal; lia.
Qed.

(** X11. The mapping is empty exactly when no record of the feed has both a
    status other than "OWNED" and the recipe "SKIN_RENTAL_disenchant". *)
Theorem unowned_empty_iff loot :
  get_unowned_shards_by_champion_id loot = ∅
  ↔ Forall (λ item, ¬ redeemable item) loot.
Proof.
  rewrite map_empty. split.
  - intros Hnone. apply Forall_forall. intros item Hin Hred.
    specialize (Hnone (parentStoreItemId item)).
    rewrite get_unowned_lookup in Hnone.
    pose proof (spec_unowned_redeemable loot item Hin Hred).
    case_decide; [lia | done].
  - intros Hall i. rewrite get_unowned_lookup.
    by rewrite spec_unowned_none, decide_True.
Qed.

End ClassifierMore.

(** * Further properties of the ownership joiner *)

Section LoopFacts.
Context {S A : Type}.
Implicit Types (f : S → A → option S) (l : list A).

(** A loop whose body fails on certain elements, whatever the state, fails
    exactly when it meets one of them. *)
Lemma for_each_None_iff f (bad : A → Prop) :
  (∀ s x, f s x = None ↔ bad x) →
  ∀ l s, for_each f s l = None ↔ ∃ x, x ∈ l ∧ bad x.
Proof.
  intros Hbad. induction l as [|x l IH]; intros s; cbn [for_each].
  - split; [done|]. intros (x & Hx & _). by apply elem_of_nil in Hx.
  - destruct (f s x) as [s'|] eqn:Hf; cbn [mbind option_bind].
    + rewrite IH. split.
      * intros (y & Hy & Hby). exists y. split; [by right | done].
      * intros (y & Hy & Hby). apply elem_of_cons in Hy as [->|Hy].
        -- apply Hbad with (s := s) in Hby. congruence.
        -- by exists y.
    + split; [|done]. intros _. exists x. split; [by left|].
      by apply (Hbad s).
Qed.

(** A property of the state that every iteration keeps holds at the end. *)
Lemma for_each_invariant f (P : S → Prop) :
  (∀ s x s', P s → f s x = Some s' → P s') →
  ∀ l s s', P s → for_each f s l = Some s' → P s'.
Proof.
  intros Hstep. induction l as [|x l IH]; intros s s' Hs; cbn [for_each].
  - by intros [= <-].
  - destruct (f s x) as [s1|] eqn:Hf; cbn [mbind option_bind]; [|done].
    apply IH. by apply (Hstep s x).
Qed.
End LoopFacts.

Section JoinerMore.
Import ChallengeCollectionStats.

Implicit Types (champ_json : list (string * Champion)) (c : Champion).
Implicit Types (m : gmap Z Z) (ids : list Z) (i : Z).
Implicit Types (sk : list (string * list Skin)).

Lemma count_skin_None champ_json ids (k : string) m (skin : Skin) :
  count_skin champ_json ids k m skin = None
  ↔ skin_id skin ∈ ids ∧ dict_get k champ_json = None.
Proof.
  unfold count_skin. case_decide as Hin.
  - destruct (dict_get k champ_json); cbn; split; try done.
    by intros [_ ?].
  - split; [done | by intros [? _]].
Qed.

Lemma count_skin_unowned champ_json ids (k : string) m (skin : Skin) :
  skin_id skin ∉ ids → count_skin champ_json ids k m skin = Some m.
Proof. intros Hnin. unfold count_skin. by rewrite decide_False. Qed.

Lemma count_skins_None champ_json ids (k : string) m (l : list Skin) :
  for_each (count_skin champ_json ids k) m l = None
  ↔ ∃ skin, skin ∈ l ∧ skin_id skin ∈ ids ∧ dict_get k champ_json = None.
Proof.
  apply (for_each_None_iff (count_skin champ_json ids k)
           (λ skin, skin_id skin ∈ ids ∧ dict_get k champ_json = None)).
  intros m' skin. apply count_skin_None.
Qed.

(** The joiner raises exactly when an owned skin sits under a key that the
    catalog does not have. *)
Lemma get_owned_None_iff sk champ_json (owned_skins : list OwnedItem) :
  get_owned_skins_by_champion_id sk champ_json owned_skins = None
  ↔ ∃ k l skin, (k, l) ∈ sk ∧ skin ∈ l
                ∧ skin_id skin ∈ itemId <$> owned_skins
                ∧ k ∉ dict_keys champ_json.
Proof.
  unfold get_owned_skins_by_champion_id.
  rewrite (for_each_None_iff _
             (λ entry : string * list Skin,
                ∃ skin, skin ∈ entry.2
                        ∧ skin_id skin ∈ itemId <$> owned_skins
                        ∧ dict_get entry.1 champ_json = None)).
  - split.
    + intros ([k l] & Hin & skin & Hskin & Hown & Hget).
      exists k, l, skin. by rewrite <- dict_get_None.
    + intros (k & l & skin & Hin & Hskin & Hown & Hget).
      exists (k, l). split; [done|]. exists skin.
      by rewrite dict_get_None.
  - intros m entry. apply count_skins_None.
Qed.

Lemma bump_positive (k : Z) m :
  (∀ i n, m !! i = Some n → 1 ≤ n) →
  ∀ i n, bump k m !! i = Some n → 1 ≤ n.
Proof.
  intros Hm i n. rewrite lookup_bump. case_decide; [|apply Hm].
  intros [= <-]. destruct (m !! k) as [n'|] eqn:Hk; cbn; [|lia].
  specialize (Hm k n' Hk). lia.
Qed.

(** Every count the joiner stores is at least one. *)
Lemma get_owned_positive sk champ_json (owned_skins : list OwnedItem) m :
  get_owned_skins_by_champion_id sk champ_json owned_skins = Some m →
  ∀ i n, m !! i = Some n → 1 ≤ n.
Proof.
  unfold get_owned_skins_by_champion_id.
  apply (for_each_invariant _ (λ m, ∀ i n, m !! i = Some n → 1 ≤ n)).
  - intros m0 entry m1 Hm0.
    apply (for_each_invariant _ (λ m, ∀ i n, m !! i = Some n → 1 ≤ n));
      [|done].
    intros m2 skin m3 Hm2. unfold count_skin. case_decide.
    + destruct (dict_get entry.1 champ_json); cbn; [|done].
      intros [= <-]. by apply bump_positive.
    + by intros [= <-].
  - intros i n. by rewrite lookup_empty.
Qed.

Lemma length_filter_mono {B : Type} (P Q : B → Prop)
    `{∀ x, Decision (P x)} `{∀ x, Decision (Q x)} (l : list B) :
  (∀ x, P x → Q x) → (length (filter P l) ≤ length (filter Q l))%nat.
Proof.
  intros HPQ. induction l as [|x l IH]; [done|].
  rewrite !filter_cons. destruct (decide (P x)) as [HP|HP].
  - rewrite decide_True by auto. cbn [length]. lia.
  - case_decide; cbn [length]; lia.
Qed.

Lemma spec_owned_total_mono (l : list (string * Champion)) ids1 ids2 i :
  (∀ x, x ∈ ids1 → x ∈ ids2) →
  spec_owned_total l ids1 i ≤ spec_owned_total l ids2 i.
Proof.
  intros Hsub. unfold spec_owned_total, Zsum.
  induction l as [|[k c] l IH]; [done|].
  rewrite !fmap_cons. cbn [foldr snd]. case_decide; [|lia].
  pose proof (length_filter_mono (λ skin, skin_id skin ∈ ids1)
                (λ skin, skin_id skin ∈ ids2) (spec_non_base c)
                (λ skin, Hsub (skin_id skin))).
  lia.
Qed.

(** X12. The joiner raises a [KeyError] exactly when some skin of the
    normalized dictionary is owned and sits under a key that is not a key of
    the catalog; a key without an owned skin is never looked up. *)
Theorem joiner_raises_iff sk champ_json (owned_skins : list OwnedItem) :
  get_owned_skins_by_champion_id sk champ_json owned_skins = None
  ↔ ∃ k l skin, (k, l) ∈ sk ∧ skin ∈ l
                ∧ skin_id skin ∈ itemId <$> owned_skins
                ∧ k ∉ dict_keys champ_json.
Proof. apply get_owned_None_iff. Qed.

(** X13. With no owned id among the skins of the normalized dictionary (an
    empty inventory, for one) the joiner returns the empty mapping, whatever
    the catalog. *)
Theorem joiner_nothing_owned sk champ_json (owned_skins : list OwnedItem) :
  (∀ k l skin, (k, l) ∈ sk → skin ∈ l →
               skin_id skin ∉ itemId <$> owned_skins) →
  get_owned_skins_by_champion_id sk champ_json owned_skins = Some ∅.
Proof.
  intros Hnone. unfold get_owned_skins_by_champion_id.
  generalize (∅ : gmap Z Z).
  induction sk as [|[k l] sk IH]; intros m; [done|]. cbn [for_each fst snd].
  assert (for_each (count_skin champ_json (itemId <$> owned_skins) k) m l
          = Some m) as ->.
  { assert (∀ skin, skin ∈ l → skin_id skin ∉ itemId <$> owned_skins)
      as Hl by (intros skin Hskin; apply (Hnone k l); [by left | done]).
    clear IH Hnone. induction l as [|skin l IHl]; [done|].
    cbn [for_each]. rewrite count_skin_unowned by (apply Hl; by left).
    cbn [mbind option_bind]. apply IHl. intros skin' Hskin'. apply Hl. by right. }
  cbn [mbind option_bind]. apply IH.
  intros k' l' skin Hin. apply (Hnone k' l'). by right.
Qed.

Lemma joiner_nothing_owned_witness :
  get_owned_skins_by_champion_id
    (get_skins_by_champion_key MoreSamples.clashing) MoreSamples.clashing []
  = Some ∅.
Proof.
  apply (joiner_nothing_owned
           (get_skins_by_champion_key MoreSamples.clashing)
           MoreSamples.clashing []).
  intros k l skin _ _ Hin. by apply elem_of_nil in Hin.
Defined.

(** X14. On a keyed catalog, owning more never lowers a count: when every
    id of one inventory is in another, each champion's owned count for the
    first is at most its count for the second. *)
Theorem owned_counts_monotone champ_json (o1 o2 : list OwnedItem) :
  catalog_keyed champ_json →
  (∀ x, x ∈ itemId <$> o1 → x ∈ itemId <$> o2) →
  ∃ m1 m2,
    get_owned_skins_by_champion_id (get_skins_by_champion_key champ_json)
                                   champ_json o1 = Some m1
    ∧ get_owned_skins_by_champion_id (get_skins_by_champion_key champ_json)
                                     champ_json o2 = Some m2
    ∧ ∀ i, default 0 (m1 !! i) ≤ default 0 (m2 !! i).
Proof.
  intros Hwf Hsub.
  destruct (get_owned_keyed champ_json o1 Hwf) as (m1 & Hrun1 & Hm1).
  destruct (get_owned_keyed champ_json o2 Hwf) as (m2 & Hrun2 & Hm2).
  exists m1, m2. split; [done|]. split; [done|]. intros i.
  rewrite Hm1, Hm2. by apply spec_owned_total_mono.
Qed.

Lemma owned_counts_monotone_witness :
  ∃ m1 m2,
    get_owned_skins_by_champion_id
      (get_skins_by_champion_key Samples.champ_json) Samples.champ_json
      [ {| itemId := 266001 |} ] = Some m1
    ∧ get_owned_skins_by_champion_id
        (get_skins_by_champion_key Samples.champ_json) Samples.champ_json
        Samples.owned_skins = Some m2
    ∧ ∀ i, default 0 (m1 !! i) ≤ default 0 (m2 !! i).
Proof.
  apply (owned_counts_monotone Samples.champ_json [ {| itemId := 266001 |} ]
                               Samples.owned_skins).
  - exact sample_catalog_keyed.
  - intros x [->|Hx]%elem_of_cons; [by left | by apply elem_of_nil in Hx].
Defined.

(** X15. Every count the joiner stores is at least one: a champion without
    an owned skin has no entry rather than a zero. *)
Theorem owned_counts_positive sk champ_json (owned_skins : list OwnedItem)
    m i (n : Z) :
  get_owned_skins_by_champion_id sk champ_json owned_skins = Some m →
  m !! i = Some n → 1 ≤ n.
Proof. intros Hrun. by apply (get_owned_positive sk champ_json owned_skins). Qed.

Lemma owned_counts_positive_witness :
  get_owned_skins_by_champion_id
    (get_skins_by_champion_key Samples.champ_json) Samples.champ_json
    Samples.owned_skins = Some {[ 266 := 1; 103 := 1 ]}
  ∧ 1 ≤ 1.
Proof.
  assert (get_owned_skins_by_champion_id
            (get_skins_by_champion_key Samples.champ_json) Samples.champ_json
            Samples.owned_skins = Some {[ 266 := 1; 103 := 1 ]}) as Hrun
    by (vm_compute; reflexivity).
  split; [exact Hrun|].
  apply (owned_counts_positive _ _ _ _ 266 1 Hrun).
  vm_compute. reflexivity.
Defined.

End JoinerMore.

(** * Further properties of the report *)

Section ReporterMore.
Import ChallengeCollectionStats.

Implicit Types (champ_json : list (string * Champion)) (c : Champion).
Implicit Types (unowned owned_by_id m : gmap Z Z) (loot : list LootRecord).

Lemma add_row_None champ_json unowned owned_by_id (table : list Row)
    (entry : string * list Skin) :
  add_row champ_json unowned owned_by_id table entry = None
  ↔ dict_get entry.1 champ_json = None.
Proof. unfold add_row. by destruct (dict_get entry.1 champ_json). Qed.

Lemma add_rows_length champ_json unowned owned_by_id
    (l : list (string * list Skin)) : ∀ table rows,
  for_each (add_row champ_json unowned owned_by_id) table l = Some rows →
  length rows = (length table + length l)%nat.
Proof.
  induction l as [|entry l IH]; intros table rows; cbn [for_each].
  - intros [= <-]. cbn [length]. lia.
  - destruct (add_row champ_json unowned owned_by_id table entry)
      as [table'|] eqn:Hrow; cbn [mbind option_bind]; [|done].
    unfold add_row in Hrow.
    destruct (dict_get entry.1 champ_json); cbn [mbind option_bind] in Hrow;
      [|done].
    injection Hrow as <-. intros Hrun. apply IH in Hrun.
    rewrite length_app in Hrun. cbn [length] in *. lia.
Qed.

(** The keys of the normalized dictionary are the [key] fields. *)
Lemma get_skins_keys champ_json (k : string) :
  k ∈ dict_keys (get_skins_by_champion_key champ_json)
  ↔ k ∈ champion_key <$> dict_values champ_json.
Proof.
  unfold get_skins_by_champion_key.
  destruct (get_skins_fold_keys (dict_values champ_json) [])
    as (_ & Hkeys & _); [apply NoDup_nil_2|].
  rewrite Hkeys. cbn. rewrite elem_of_nil. tauto.
Qed.

(** The report on a keyed catalog, with what the joiner's counts are. *)
Lemma callback_rows_keyed champ_json loot (owned_skins : list OwnedItem) :
  catalog_keyed champ_json →
  ∃ m,
    (∀ i, default 0 (m !! i)
          = spec_owned_total champ_json (itemId <$> owned_skins) i)
    ∧ callback champ_json loot owned_skins
      = Some (spec_row (get_unowned_shards_by_champion_id loot) m
                <$> dict_values champ_json).
Proof.
  intros Hwf.
  destruct (get_owned_keyed champ_json owned_skins Hwf) as (m & Hrun & Hm).
  exists m. split; [done|]. unfold callback. rewrite Hrun.
  cbn [mbind option_bind]. rewrite get_skins_keyed by done.
  rewrite add_rows_run; [done|].
  intros entry Hin. by apply catalog_keyed_get.
Qed.

(** X16. The report raises a [KeyError] exactly when some champion of the
    catalog carries a [key] field that is not a key of the catalog; loot and
    inventory play no part in it. *)
Theorem report_raises_iff champ_json loot (owned_skins : list OwnedItem) :
  callback champ_json loot owned_skins = None
  ↔ ∃ c, c ∈ dict_values champ_json
         ∧ champion_key c ∉ dict_keys champ_json.
Proof.
  unfold callback. split.
  - destruct (get_owned_skins_by_champion_id _ champ_json owned_skins)
      as [m|] eqn:Hrun; cbn [mbind option_bind].
    + rewrite (for_each_None_iff _
                 (λ entry : string * list Skin,
                    dict_get entry.1 champ_json = None))
        by (intros; apply add_row_None).
      intros ([k l] & Hin & Hget). cbn [fst] in Hget.
      assert (k ∈ champion_key <$> dict_values champ_json) as Hk.
      { apply get_skins_keys. unfold dict_keys.
        apply list_elem_of_fmap. by exists (k, l). }
      apply list_elem_of_fmap in Hk as (c & -> & Hc).
      exists c. split; [done|]. by apply dict_get_None.
    + intros _. apply get_owned_None_iff in Hrun
        as (k & l & skin & Hin & _ & _ & Hk).
      assert (k ∈ champion_key <$> dict_values champ_json) as Hk'.
      { apply get_skins_keys. unfold dict_keys.
        apply list_elem_of_fmap. by exists (k, l). }
      apply list_elem_of_fmap in Hk' as (c & -> & Hc). by exists c.
  - intros (c & Hc & Hk).
    destruct (get_owned_skins_by_champion_id _ champ_json owned_skins)
      as [m|]; cbn [mbind option_bind]; [|done].
    rewrite (for_each_None_iff _
               (λ entry : string * list Skin,
                  dict_get entry.1 champ_json = None))
      by (intros; apply add_row_None).
    assert (champion_key c
            ∈ dict_keys (get_skins_by_champion_key champ_json)) as Hin.
    { apply get_skins_keys. apply list_elem_of_fmap. by exists c. }
    unfold dict_keys in Hin. apply list_elem_of_fmap in Hin
      as ([k l] & Heq & Hin). cbn [fst] in Heq. subst k.
    exists (champion_key c, l). split; [done|]. by apply dict_get_None.
Qed.

(** X17. The report reads the inventory as a set of ids: two inventories
    with the same set of item ids, in any order and with any repetitions,
    give the same rows. *)
Theorem report_reads_inventory_as_set champ_json loot
    (o1 o2 : list OwnedItem) :
  list_to_set (itemId <$> o1) =@{gset Z} list_to_set (itemId <$> o2) →
  callback champ_json loot o1 = callback champ_json loot o2.
Proof.
  intros Hset. unfold callback.
  rewrite (get_owned_members _ champ_json o1 o2); [done|].
  intros x. by rewrite <- !(elem_of_list_to_set (C := gset Z)), Hset.
Qed.

Lemma report_reads_inventory_as_set_witness :
  callback Samples.champ_json Samples.loot_mixed Samples.owned_skins
  = callback Samples.champ_json Samples.loot_mixed
             [ {| itemId := 103001 |}; {| itemId := 266001 |} ].
Proof.
  apply (report_reads_inventory_as_set Samples.champ_json Samples.loot_mixed
           Samples.owned_skins
           [ {| itemId := 103001 |}; {| itemId := 266001 |} ]).
  vm_compute. reflexivity.
Defined.

(** X18. Whenever the report is produced, for any catalog, every row has a
    skin count and an unowned count that are not negative, and a total that
    is at least the unowned count. *)
Theorem rows_nonnegative champ_json loot (owned_skins : list OwnedItem)
    (rows : list Row) :
  callback champ_json loot owned_skins = Some rows →
  Forall (λ row, 0 ≤ row_skins row ∧ 0 ≤ row_unowned row ≤ row_total row)
         rows.
Proof.
  unfold callback.
  destruct (get_owned_skins_by_champion_id _ champ_json owned_skins)
    as [m|] eqn:Hrun; cbn [mbind option_bind]; [|done].
  pose proof (get_owned_positive _ _ _ _ Hrun) as Hpos.
  apply (for_each_invariant _
           (Forall (λ row, 0 ≤ row_skins row
                           ∧ 0 ≤ row_unowned row ≤ row_total row)));
    [|constructor].
  intros table entry table' Htable. unfold add_row.
  destruct (dict_get entry.1 champ_json) as [c|]; cbn [mbind option_bind];
    [|done].
  intros [= <-]. apply Forall_app. split; [done|].
  constructor; [|constructor]. cbn [row_skins row_unowned row_total].
  split; [lia|]. rewrite get_unowned_lookup.
  pose proof (spec_unowned_nonneg loot (champion_id c)).
  assert (0 ≤ match m !! champion_id c with Some n => n | None => 0 end).
  { destruct (m !! champion_id c) as [n|] eqn:Hn; [|lia].
    specialize (Hpos _ _ Hn). lia. }
  case_decide; lia.
Qed.

Lemma rows_nonnegative_witness :
  Forall (λ row, 0 ≤ row_skins row ∧ 0 ≤ row_unowned row ≤ row_total row)
         [ {| row_name := "Aatrox"; row_skins := 2; row_unowned := 2;
              row_total := 3 |};
           {| row_name := "Ahri"; row_skins := 1; row_unowned := 0;
              row_total := 1 |} ].
Proof.
  apply (rows_nonnegative Samples.champ_json Samples.loot_mixed
                          Samples.owned_skins).
  vm_compute. reflexivity.
Defined.

(** X19. On a catalog whose champions repeat their key and have pairwise
    different ids, no row shows a total above its skin count plus its
    unowned count: the owned part of the total is at most the number of
    non-base skins. *)
Theorem rows_total_bound champ_json loot (owned_skins : list OwnedItem) :
  catalog_keyed champ_json → catalog_ids_distinct champ_json →
  ∃ rows,
    callback champ_json loot owned_skins = Some rows
    ∧ Forall (λ row, row_total row ≤ row_skins row + row_unowned row) rows.
Proof.
  intros Hwf Hids.
  destruct (callback_rows_keyed champ_json loot owned_skins Hwf)
    as (m & Hm & Hrows).
  eexists. split; [exact Hrows|]. apply Forall_fmap, Forall_forall.
  intros c Hc. unfold dict_values in Hc.
  apply list_elem_of_fmap in Hc as ([k c'] & -> & Hin). cbn [snd].
  unfold compose, spec_row. cbn [row_total row_skins row_unowned].
  rewrite Hm.
  pose proof (spec_owned_total_bound champ_json (itemId <$> owned_skins)
                k c' Hids Hin). lia.
Qed.

Lemma rows_total_bound_witness :
  ∃ rows,
    callback Samples.champ_json Samples.loot_mixed Samples.owned_skins
    = Some rows
    ∧ Forall (λ row, row_total row ≤ row_skins row + row_unowned row) rows.
Proof.
  apply (rows_total_bound Samples.champ_json Samples.loot_mixed
                          Samples.owned_skins).
  - exact sample_catalog_keyed.
  - apply (bool_decide_unpack _). vm_compute. reflexivity.
Defined.

(** X20. Whenever the report is produced, it has one row for every entry of
    the normalized dictionary, hence never more rows than the catalog has
    champions. *)
Theorem rows_count champ_json loot (owned_skins : list OwnedItem)
    (rows : list Row) :
  callback champ_json loot owned_skins = Some rows →
  length rows = length (get_skins_by_champion_key champ_json)
  ∧ (length rows ≤ length champ_json)%nat.
Proof.
  unfold callback.
  destruct (get_owned_skins_by_champion_id _ champ_json owned_skins)
    as [m|]; cbn [mbind option_bind]; [|done].
  intros Hrun%add_rows_length. cbn [length] in Hrun.
  split; [lia|]. rewrite Hrun.
  unfold get_skins_by_champion_key.
  destruct (get_skins_fold_keys (dict_values champ_json) [])
    as (_ & _ & Hlen); [apply NoDup_nil_2|].
  unfold dict_values in *. rewrite length_fmap in Hlen.
  cbn [length] in Hlen. lia.
Qed.

Lemma rows_count_witness :
  length [ {| row_name := "Aatrox"; row_skins := 2; row_unowned := 2;
              row_total := 3 |};
           {| row_name := "Ahri"; row_skins := 1; row_unowned := 0;
              row_total := 1 |} ]
  = length (get_skins_by_champion_key Samples.champ_json)
  ∧ (length [ {| row_name := "Aatrox"; row_skins := 2; row_unowned := 2;
                 row_total := 3 |};
              {| row_name := "Ahri"; row_skins := 1; row_unowned := 0;
                 row_total := 1 |} ]
     ≤ length Samples.champ_json)%nat.
Proof.
  apply (rows_count Samples.champ_json Samples.loot_mixed
                    Samples.owned_skins).
  vm_compute. reflexivity.
Defined.

End ReporterMore.

(** * Properties of import_from_json.py *)

Section SettingsFacts.
Import SettingsImport.

Context {Json : Type}.
Variable load : string → option Json.
Variable respond : list (Request (Json := Json))
                   → Request (Json := Json) → option Z.

Implicit Types (tr : Trace (Json := Json)) (items : list string).

(** What the loop adds to the trace: requests for a prefix of the items,
    each a PATCH of the item's endpoint with the document of its backup
    file, and a line for every answered request. *)
Lemma restore_all_trace items : ∀ tr tr' (ok : bool),
  restore_all load respond tr items = (tr', ok) →
  ∃ (new_sent : list (Request (Json := Json))) (new_lines : list string)
    (n : nat),
    sent tr' = sent tr ++ new_sent
    ∧ lines tr' = lines tr ++ new_lines
    ∧ Forall2 (λ req item,
                 method req = "patch"
                 ∧ path req = endpoint item
                 ∧ load ("scripts/settings_backup/.backup/" +:+ item
                         +:+ ".json") = Some (data req))
              new_sent (take n items)
    ∧ (length new_lines ≤ length new_sent ≤ length new_lines + 1)%nat
    ∧ (ok = true → length new_lines = length items
                   ∧ length new_sent = length items)
    ∧ (ok = false → (length new_lines < length items)%nat).
Proof.
  induction items as [|item items IH]; intros tr tr' ok; cbn [restore_all].
  - intros [= <- <-]. exists [], [], 0%nat. rewrite !app_nil_r.
    split; [done|]. split; [done|]. split; [constructor|].
    cbn [length]. split; [lia|]. split; [done | discriminate].
  - unfold restore_item.
    destruct (load ("scripts/settings_backup/.backup/" +:+ item +:+ ".json"))
      as [d|] eqn:Hload.
    + destruct (respond (sent tr) _) as [status|] eqn:Hresp.
      * intros Hrun. apply IH in Hrun
          as (new_sent & new_lines & n & Hs & Hl & Hall & Hlen & Hok & Hko).
        cbn [sent lines] in Hs, Hl.
        eexists (_ :: new_sent), (_ :: new_lines), (S n).
        rewrite Hs, Hl, <- !app_assoc. cbn [app take length].
        split; [done|]. split; [done|]. split.
        { constructor; [|done]. by cbn [method path data]. }
        split; [lia|]. split.
        -- intros Htrue. specialize (Hok Htrue). lia.
        -- intros Hfalse. specialize (Hko Hfalse). lia.
      * intros [= <- <-]. eexists [_], [], 1%nat. cbn [sent lines].
        rewrite app_nil_r. cbn [take length].
        split; [done|]. split; [done|]. split.
        { constructor; [|constructor]. by cbn [method path data]. }
        split; [lia|]. split; [discriminate | lia].
    + intros [= <- <-]. exists [], [], 0%nat. rewrite !app_nil_r.
      split; [done|]. split; [done|]. split; [constructor|].
      cbn [length]. split; [lia|]. split; [discriminate | lia].
Qed.

(** X21. Whatever the files and the client, the script issues at most two
    requests, and they are PATCH requests to the game-settings endpoint and
    then to the input-settings endpoint, each carrying the document loaded
    from the backup file of its item. *)
Theorem worker_requests :
  ∃ n : nat,
    Forall2 (λ req item,
               method req = "patch"
               ∧ path req = "/lol-game-settings/v1/" +:+ item
               ∧ load ("scripts/settings_backup/.backup/" +:+ item
                       +:+ ".json") = Some (data req))
            (sent (worker_func load respond).1)
            (take n ["game-settings"; "input-settings"]).
Proof.
  destruct (worker_func load respond) as [tr ok] eqn:Hrun.
  unfold worker_func in Hrun. apply restore_all_trace in Hrun
    as (new_sent & new_lines & n & Hs & _ & Hall & _).
  exists n. cbn [fst]. rewrite Hs. exact Hall.
Qed.


(** X23. The restore is not atomic: when the game settings are loaded and
    patched but the backup of the input settings cannot be loaded, the
    script ends with an exception after the first request has been issued
    and its status printed. *)
Theorem restore_not_atomic (d : Json) (status : Z) :
  load "scripts/settings_backup/.backup/game-settings.json" = Some d →
  respond [] {| method := "patch";
                path := "/lol-game-settings/v1/game-settings";
                data := d |} = Some status →
  load "scripts/settings_backup/.backup/input-settings.json" = None →
  worker_func load respond
  = ({| sent := [ {| method := "patch";
                     path := "/lol-game-settings/v1/game-settings";
                     data := d |} ];
        lines := [ "game-settings req status: " +:+ pretty status ] |},
     false).
Proof.
  intros Hgame Hresp Hinput.
  unfold worker_func. cbn [restore_all]. unfold restore_item at 1.
  change ("scripts/settings_backup/.backup/" +:+ "game-settings" +:+ ".json")
    with "scripts/settings_backup/.backup/game-settings.json".
  change ("/lol-game-settings/v1/" +:+ "game-settings")
    with "/lol-game-settings/v1/game-settings".
  cbn [sent lines]. rewrite Hgame, Hresp. unfold restore_item.
  change ("scripts/settings_backup/.backup/" +:+ "input-settings" +:+ ".json")
    with "scripts/settings_backup/.backup/input-settings.json".
  by rewrite Hinput.
Qed.

(** X24. When the backup of the game settings cannot be loaded, nothing is
    requested and nothing is printed: the input settings are not restored
    either, whether their backup is there or not. *)
Theorem restore_needs_first_backup :
  load "scripts/settings_backup/.backup/game-settings.json" = None →
  worker_func load respond = ({| sent := []; lines := [] |}, false).
Proof.
  intros Hgame. unfold worker_func. cbn [restore_all].
  unfold restore_item.
  change ("scripts/settings_backup/.backup/" +:+ "game-settings" +:+ ".json")
    with "scripts/settings_backup/.backup/game-settings.json".
  by rewrite Hgame.
Qed.

End SettingsFacts.

Lemma restore_not_atomic_witness :
  SettingsImport.worker_func MoreSamples.load_game_only MoreSamples.always_ok
  = ({| SettingsImport.sent :=
          [ {| SettingsImport.method := "patch";
               SettingsImport.path := "/lol-game-settings/v1/game-settings";
               SettingsImport.data := "{}" |} ];
        SettingsImport.lines := [ "game-settings req status: 204" ] |},
     false).
Proof.
  apply (restore_not_atomic MoreSamples.load_game_only MoreSamples.always_ok
           "{}" 204); reflexivity.
Defined.

Lemma restore_needs_first_backup_witness :
  SettingsImport.worker_func (λ _ : string, None (A := string))
                             MoreSamples.always_ok
  = ({| SettingsImport.sent := []; SettingsImport.lines := [] |}, false).
Proof.
  apply (restore_needs_first_backup (λ _ : string, None (A := string))
                                    MoreSamples.always_ok).
  reflexivity.
Defined.

(** Both backups on disk and a client that answers 204. *)
Example restore_both :
  SettingsImport.worker_func MoreSamples.load_both MoreSamples.always_ok
  = ({| SettingsImport.sent :=
          [ {| SettingsImport.method := "patch";
               SettingsImport.path := "/lol-game-settings/v1/game-settings";
               SettingsImport.data := "{}" |};
            {| SettingsImport.method := "patch";
               SettingsImport.path := "/lol-game-settings/v1/input-settings";
               SettingsImport.data := "[]" |} ];
        SettingsImport.lines := [ "game-settings req status: 204";
                                  "input-settings req status: 204" ] |},
     true).
Proof. vm_compute. reflexivity. Qed.
